(** * AcmeLiquors: order intake, inventory reservation, order saga and
    change-event transformer, embedded over a DynamoDB-style store.

    Items are attribute maps, as DynamoDB stores them; each table is a finite
    map from its primary key to an item.  The handlers run in a state and
    error monad over a [World] holding the tables, the messages and Lambda
    invocations sent so far, and the set of services that are currently
    unavailable (a request to one of them raises, as the AWS SDK does).
    Non-deterministic values of the source (ULIDs, [new Date()],
    [Math.random()]) are inputs of the handlers. *)

From Stdlib Require Import ZArith Floats Ascii.
From stdpp Require Import base gmap list strings sorting.

Open Scope string_scope.

(** ** Attribute values and items *)

(** A DynamoDB attribute value, as the document client marshals JS values:
    strings, integer numbers (quantities, counters), floating point numbers
    (money), booleans, lists and maps. *)
Inductive attr :=
| AS (s : string)
| AN (n : Z)
| AF (f : float)
| AB (b : bool)
| AL (l : list attr)
| AM (m : list (string * attr)).

Abbreviation Item := (gmap string attr).

(** JS strict equality [===] on the values read from two attributes; an
    absent attribute is [undefined].  Lists and maps produced by
    [unmarshall] are fresh objects, so [===] is false on them. *)
Definition js_strict_eq (a b : option attr) : bool :=
  match a, b with
  | None, None => true
  | Some (AS x), Some (AS y) => String.eqb x y
  | Some (AN x), Some (AN y) => Z.eqb x y
  | Some (AF x), Some (AF y) => PrimFloat.eqb x y
  | Some (AB x), Some (AB y) => Bool.eqb x y
  | _, _ => false
  end.

(** DynamoDB's [=] in a condition expression on a scalar attribute: an
    absent attribute never compares equal. *)
Definition ddb_eq (a : option attr) (v : attr) : bool :=
  match a, v with
  | Some (AS x), AS y => String.eqb x y
  | Some (AN x), AN y => Z.eqb x y
  | _, _ => false
  end.

(** [x ?? 0] on a numeric attribute. *)
Definition num_or0 (a : option attr) : Z :=
  match a with Some (AN n) => n | _ => 0 end.

(** A string-typed field inside a template literal. *)
Definition str_field (it : Item) (f : string) : string :=
  match it !! f with Some (AS s) => s | _ => "undefined" end.

(** ** Enumerations of [types/order.ts] *)

Inductive OrderStatus :=
| PENDING | CONFIRMED | PROCESSING | SHIPPED | DELIVERED | CANCELLED | FAILED.

Definition status_str (s : OrderStatus) : string :=
  match s with
  | PENDING => "PENDING" | CONFIRMED => "CONFIRMED"
  | PROCESSING => "PROCESSING" | SHIPPED => "SHIPPED"
  | DELIVERED => "DELIVERED" | CANCELLED => "CANCELLED" | FAILED => "FAILED"
  end.

Inductive PaymentState := PS_PENDING | AUTHORIZED | CAPTURED | PS_FAILED | REFUNDED.

Definition payment_str (p : PaymentState) : string :=
  match p with
  | PS_PENDING => "PENDING" | AUTHORIZED => "AUTHORIZED"
  | CAPTURED => "CAPTURED" | PS_FAILED => "FAILED" | REFUNDED => "REFUNDED"
  end.

(** ** Orders *)

(** [quantity] is validated as a positive integer ([z.number().int()]);
    prices are JS numbers, i.e. binary64 floats. *)
Record OrderItem := {
  sku : string;
  name : string;
  quantity : Z;
  unit_price : float;
  total_price : float;
}.

Record Address := { street : string; city : string; state : string; zip : string }.

Record Order := {
  customer_id : string;
  order_ts_id : string;
  order_id : string;
  order_ts : string;
  store_id : string;
  county_id : string;
  status : OrderStatus;
  payment_state : PaymentState;
  items : list OrderItem;
  subtotal : float;
  tax : float;
  total : float;
  shipping_address : Address;
  idempotency_key : string;
  created_at : string;
  updated_at : string;
}.

(** The JS number holding an integer quantity (exact below 2^53). *)
Definition js_num (z : Z) : float :=
  if (z <? 0)%Z then PrimFloat.opp (PrimFloat.of_uint63 (Uint63.of_Z (- z)))
  else PrimFloat.of_uint63 (Uint63.of_Z z).

Definition item_attr (i : OrderItem) : attr :=
  AM [("sku", AS (sku i)); ("name", AS (name i)); ("quantity", AN (quantity i));
      ("unit_price", AF (unit_price i)); ("total_price", AF (total_price i))].

Definition address_attr (a : Address) : attr :=
  AM [("street", AS (street a)); ("city", AS (city a));
      ("state", AS (state a)); ("zip", AS (zip a))].

(** The item the document client writes for an [Order]. *)
Definition order_item (o : Order) : Item :=
  list_to_map [
    ("customer_id", AS (customer_id o)); ("order_ts_id", AS (order_ts_id o));
    ("order_id", AS (order_id o)); ("order_ts", AS (order_ts o));
    ("store_id", AS (store_id o)); ("county_id", AS (county_id o));
    ("status", AS (status_str (status o)));
    ("payment_state", AS (payment_str (payment_state o)));
    ("items", AL (map item_attr (items o)));
    ("subtotal", AF (subtotal o)); ("tax", AF (tax o)); ("total", AF (total o));
    ("shipping_address", address_attr (shipping_address o));
    ("idempotency_key", AS (idempotency_key o));
    ("created_at", AS (created_at o)); ("updated_at", AS (updated_at o))].

(** The [OrderById] projection built in [createOrder]. *)
Definition order_by_id_item (o : Order) : Item :=
  list_to_map [
    ("order_id", AS (order_id o)); ("customer_id", AS (customer_id o));
    ("order_ts", AS (order_ts o));
    ("status", AS (status_str (status o)));
    ("payment_state", AS (payment_str (payment_state o)));
    ("store_id", AS (store_id o)); ("county_id", AS (county_id o));
    ("items", AL (map item_attr (items o)));
    ("subtotal", AF (subtotal o)); ("tax", AF (tax o)); ("total", AF (total o));
    ("shipping_address", address_attr (shipping_address o));
    ("created_at", AS (created_at o)); ("updated_at", AS (updated_at o))].

(** ** The world *)

Inductive service := ORDERS | ORDERS_BY_ID | INVENTORY | ORDER_QUEUE.

Definition service_eqb (a b : service) : bool :=
  match a, b with
  | ORDERS, ORDERS | ORDERS_BY_ID, ORDERS_BY_ID | INVENTORY, INVENTORY
  | ORDER_QUEUE, ORDER_QUEUE => true
  | _, _ => false
  end.

(** Observable effects outside the tables. *)
Inductive effect :=
| SqsSend (msg : list (string * attr))
| LambdaInvoke (fn : string) (payload : list (string * attr)) (async : bool).

Record World := {
  orders : gmap (string * string) Item;
  orders_by_id : gmap string Item;
  inventory : gmap string Item;
  outbox : list effect;
  unavailable : list service;
}.

Definition set_orders (t : gmap (string * string) Item) (w : World) : World :=
  {| orders := t; orders_by_id := orders_by_id w; inventory := inventory w;
     outbox := outbox w; unavailable := unavailable w |}.
Definition set_orders_by_id (t : gmap string Item) (w : World) : World :=
  {| orders := orders w; orders_by_id := t; inventory := inventory w;
     outbox := outbox w; unavailable := unavailable w |}.
Definition set_inventory (t : gmap string Item) (w : World) : World :=
  {| orders := orders w; orders_by_id := orders_by_id w; inventory := t;
     outbox := outbox w; unavailable := unavailable w |}.
Definition emit (e : effect) (w : World) : World :=
  {| orders := orders w; orders_by_id := orders_by_id w; inventory := inventory w;
     outbox := outbox w ++ [e]; unavailable := unavailable w |}.

Definition is_up (s : service) (w : World) : bool :=
  negb (existsb (service_eqb s) (unavailable w)).

(** ** The state and error monad *)

Inductive exn :=
| ConditionalCheckFailedException
| TransactionCanceledException
| ValidationException
| SyntaxError
| ServiceUnavailable (s : service).

Definition M (A : Type) : Type := World -> World * (exn + A).

Definition ret {A} (a : A) : M A := fun w => (w, inr a).
Definition bind {A B} (m : M A) (k : A -> M B) : M B :=
  fun w => match m w with
           | (w', inl e) => (w', inl e)
           | (w', inr a) => k a w'
           end.
Definition raise {A} (e : exn) : M A := fun w => (w, inl e).
Definition modify (f : World -> World) : M unit := fun w => (f w, inr tt).
Definition gets {A} (f : World -> A) : M A := fun w => (w, inr (f w)).
(** [try { m } catch (error) { h(error) }] *)
Definition try_catch {A} (m : M A) (h : exn -> M A) : M A :=
  fun w => match m w with
           | (w', inl e) => h e w'
           | (w', inr a) => (w', inr a)
           end.

Notation "x <- m ;; k" := (bind m (fun x => k))
  (at level 100, m at next level, right associativity).
Notation "m ;;; k" := (bind m (fun _ => k))
  (at level 100, right associativity).

(** A request to a service: raises when the service is unavailable. *)
Definition require (s : service) : M unit :=
  fun w => if is_up s w then (w, inr tt) else (w, inl (ServiceUnavailable s)).

(** ** DynamoDB commands, generic in the table *)

Section Table.
Context {K : Type} `{Countable K}.
Variable svc : service.
Variable tbl : World -> gmap K Item.
Variable set_tbl : gmap K Item -> World -> World.

(** [GetCommand]. *)
Definition ddb_get (k : K) : M (option Item) :=
  require svc ;;; gets (fun w => tbl w !! k).

(** [PutCommand] with an optional [ConditionExpression], evaluated on the
    item currently stored at the key ([None] when there is none). *)
Definition ddb_put (k : K) (it : Item) (cond : option Item -> bool) : M unit :=
  require svc ;;;
  old <- gets (fun w => tbl w !! k) ;;
  if cond old then modify (fun w => set_tbl (<[k := it]> (tbl w)) w)
  else raise ConditionalCheckFailedException.

(** [UpdateCommand]: [upd] is the [UpdateExpression]; on a missing item
    DynamoDB creates one from the key attributes [key_attrs]. *)
Definition ddb_update (k : K) (key_attrs : Item) (upd : Item -> Item)
    (cond : option Item -> bool) : M unit :=
  require svc ;;;
  old <- gets (fun w => tbl w !! k) ;;
  if cond old then
    modify (fun w => set_tbl (<[k := upd (default key_attrs old)]> (tbl w)) w)
  else raise ConditionalCheckFailedException.
End Table.

Definition no_condition : option Item -> bool := fun _ => true.

(** [attribute_not_exists(customer_id)] *)
Definition attribute_not_exists (a : string) : option Item -> bool :=
  fun old => match old with
             | None => true
             | Some it => match it !! a with Some _ => false | None => true end
             end.

(** [#status = :currentStatus] *)
Definition status_is (v : string) : option Item -> bool :=
  fun old => match old with None => false | Some it => ddb_eq (it !! "status") (AS v) end.

Definition orders_key_attrs (cid tsid : string) : Item :=
  list_to_map [("customer_id", AS cid); ("order_ts_id", AS tsid)].
Definition by_id_key_attrs (oid : string) : Item := {[ "order_id" := AS oid ]}.

(** ** [dynamodb/operations.ts] *)

(** [getOrderByCustomer] *)
Definition getOrderByCustomer (cid tsid : string) : M (option Item) :=
  ddb_get ORDERS orders (cid, tsid).

(** [getOrderById] *)
Definition getOrderById (oid : string) : M (option Item) :=
  ddb_get ORDERS_BY_ID orders_by_id oid.

(** [createOrder]: returns [{ created; order }], the order as an item. *)
Definition createOrder (o : Order) : M (bool * Item) :=
  try_catch
    (ddb_put ORDERS orders set_orders (customer_id o, order_ts_id o) (order_item o)
       (attribute_not_exists "customer_id") ;;;
     ddb_put ORDERS_BY_ID orders_by_id set_orders_by_id (order_id o)
       (order_by_id_item o) no_condition ;;;
     ret (true, order_item o))
    (fun e =>
       match e with
       | ConditionalCheckFailedException =>
           existing <- getOrderByCustomer (customer_id o) (order_ts_id o) ;;
           match existing with
           | Some it => ret (false, it)
           | None => raise e
           end
       | _ => raise e
       end).

(** [updateOrderStatus]: [if (expectedCurrentStatus)] adds the guard; the
    strings of [OrderStatus] are all non-empty, hence truthy. *)
Definition updateOrderStatus (cid tsid oid : string) (newStatus : OrderStatus)
    (expected : option OrderStatus) (now : string) : M bool :=
  let set_status (it : Item) :=
    <["updated_at" := AS now]> (<["status" := AS (status_str newStatus)]> it) in
  try_catch
    (ddb_update ORDERS orders set_orders (cid, tsid) (orders_key_attrs cid tsid) set_status
       (match expected with
        | Some e => status_is (status_str e)
        | None => no_condition
        end) ;;;
     ddb_update ORDERS_BY_ID orders_by_id set_orders_by_id oid (by_id_key_attrs oid)
       set_status no_condition ;;;
     ret true)
    (fun e =>
       match e with
       | ConditionalCheckFailedException => ret false
       | _ => raise e
       end).

(** ** [order-api/src/handlers/create-order.ts] *)

Record CreateOrderItem := {
  ci_sku : string; ci_name : string; ci_quantity : Z; ci_unit_price : float }.

Record CreateOrderRequest := {
  rq_customer_id : string; rq_store_id : string; rq_county_id : string;
  rq_items : list CreateOrderItem; rq_shipping_address : Address }.

(** An API Gateway event: the headers, and the body as
    [parseAndValidateBody] returns it ([None] when the schema rejects it). *)
Record ApiEvent := {
  ev_headers : list (string * string);
  ev_body : option CreateOrderRequest;
  ev_order_id_param : option string;
}.

Record Response := { statusCode : Z; body : list (string * attr) }.

(** [JSON.stringify] of an object literal drops the [undefined] fields. *)
Definition json_obj (fs : list (string * option attr)) : list (string * attr) :=
  omap (fun '(k, v) => (fun x => (k, x)) <$> v) fs.

(** [headers[k]] *)
Fixpoint header (h : list (string * string)) (k : string) : option string :=
  match h with
  | [] => None
  | (k', v) :: h' => if String.eqb k k' then Some v else header h' k
  end.

Definition err_response (code : Z) (msg : string) : Response :=
  {| statusCode := code; body := [("error", AS msg)] |}.

(** [sendOrderMessage] *)
Definition sendOrderMessage (msg : list (string * attr)) : M unit :=
  require ORDER_QUEUE ;;; modify (emit (SqsSend msg)).

(** [request.items.reduce((sum, item) => sum + item.quantity * item.unit_price, 0)] *)
Definition items_subtotal (its : list CreateOrderItem) : float :=
  fold_left (fun sum i => (sum + js_num (ci_quantity i) * ci_unit_price i)%float) its 0%float.

(** The order object the handler builds, from the generated [orderId], the
    timestamp [orderTs] and the idempotency key. *)
Definition make_order (orderId orderTs key : string) (r : CreateOrderRequest) : Order :=
  let st := items_subtotal (rq_items r) in
  let tx := (st * 0.08)%float in
  {| customer_id := rq_customer_id r;
     order_ts_id := orderTs ++ "#" ++ orderId;
     order_id := orderId;
     order_ts := orderTs;
     store_id := rq_store_id r;
     county_id := rq_county_id r;
     status := PENDING;
     payment_state := PS_PENDING;
     items := map (fun i => {| sku := ci_sku i; name := ci_name i;
                               quantity := ci_quantity i; unit_price := ci_unit_price i;
                               total_price := (js_num (ci_quantity i) * ci_unit_price i)%float |})
                  (rq_items r);
     subtotal := st;
     tax := tx;
     total := (st + tx)%float;
     shipping_address := rq_shipping_address r;
     idempotency_key := key;
     created_at := orderTs;
     updated_at := orderTs |}.

(** [handler] of create-order: [orderId] is the ULID [generateOrderId()]
    returns and [orderTs] is [new Date().toISOString()]. *)
Definition create_order_handler (orderId orderTs : string) (ev : ApiEvent) : M Response :=
  try_catch
    (let idem := match header (ev_headers ev) "X-Idempotency-Key" with
                 | Some k => Some k
                 | None => header (ev_headers ev) "x-idempotency-key"
                 end in
     match idem with
     | None | Some "" => ret (err_response 400 "Missing X-Idempotency-Key header")
     | Some key =>
         match ev_body ev with
         | None => ret (err_response 400 "Validation failed")
         | Some request =>
             let order := make_order orderId orderTs key request in
             result <- createOrder order ;;
             let '(created, o) := result in
             (if created then
                sendOrderMessage [("order_id", AS orderId);
                                  ("customer_id", AS (rq_customer_id request));
                                  ("order_ts_id", AS (order_ts_id order));
                                  ("action", AS "PROCESS_ORDER");
                                  ("timestamp", AS orderTs)]
              else ret tt) ;;;
             ret {| statusCode := if created then 201 else 200;
                    body := json_obj
                      ([("order_id", o !! "order_id");
                        ("customer_id", o !! "customer_id");
                        ("status", o !! "status");
                        ("payment_state", o !! "payment_state");
                        ("items", o !! "items");
                        ("subtotal", o !! "subtotal");
                        ("tax", o !! "tax");
                        ("total", o !! "total");
                        ("created_at", o !! "created_at")] ++
                       (if created then []
                        else [("message", Some (AS "Order already exists (idempotent)"))])) |}
         end
     end)
    (fun _ => ret (err_response 500 "Internal server error")).

(** ** [order-api/src/handlers/cancel-order.ts] *)

(** [CANCELLABLE_STATUSES.includes(order.status)]: the matching element. *)
Definition cancellable (a : option attr) : option OrderStatus :=
  match a with
  | Some (AS s) =>
      if String.eqb s (status_str PENDING) then Some PENDING
      else if String.eqb s (status_str CONFIRMED) then Some CONFIRMED
      else None
  | _ => None
  end.

(** The first await of the handler: fetch the projection and check it. *)
Definition cancel_check (orderId : string) : M (Response + Item) :=
  order <- getOrderById orderId ;;
  match order with
  | None => ret (inl {| statusCode := 404;
                        body := [("error", AS "Order not found"); ("order_id", AS orderId)] |})
  | Some o =>
      match cancellable (o !! "status") with
      | None => ret (inl {| statusCode := 409;
                            body := json_obj [("error", Some (AS "Order cannot be cancelled"));
                                              ("order_id", Some (AS orderId));
                                              ("current_status", o !! "status");
                                              ("message", Some (AS "Order can only be cancelled when status is PENDING or CONFIRMED"))] |})
      | Some _ => ret (inr o)
      end
  end.

(** [`${order.order_ts}#${order.order_id}`] with [order.customer_id]. *)
Definition primary_key_of (o : Item) : string * string :=
  (str_field o "customer_id", str_field o "order_ts" ++ "#" ++ str_field o "order_id").

(** The second await: the guarded transition to CANCELLED. *)
Definition cancel_commit (orderId : string) (o : Item) (now : string) : M Response :=
  updated <- updateOrderStatus (fst (primary_key_of o)) (snd (primary_key_of o)) orderId
               CANCELLED (cancellable (o !! "status")) now ;;
  if updated then
    ret {| statusCode := 200;
           body := [("order_id", AS orderId); ("status", AS (status_str CANCELLED));
                    ("message", AS "Order cancelled successfully")] |}
  else
    ret {| statusCode := 409;
           body := [("error", AS "Order status changed, please retry"); ("order_id", AS orderId)] |}.

(** [handler] of cancel-order ([DELETE /orders/{order_id}]). *)
Definition cancel_order_handler (now : string) (ev : ApiEvent) : M Response :=
  try_catch
    (match ev_order_id_param ev with
     | None | Some "" => ret (err_response 400 "Missing order_id parameter")
     | Some orderId =>
         checked <- cancel_check orderId ;;
         match checked with
         | inl resp => ret resp
         | inr o => cancel_commit orderId o now
         end
     end)
    (fun _ => ret (err_response 500 "Internal server error")).

Definition cancel_event (orderId : string) : ApiEvent :=
  {| ev_headers := []; ev_body := None; ev_order_id_param := Some orderId |}.

(** ** [order-processor/src/handlers/reserve-inventory.ts] *)

Record ReserveInventoryRequest := {
  rr_order_id : string; rr_customer_id : string; rr_store_id : string;
  rr_items : list OrderItem }.

Record ReserveInventoryResponse := {
  success : bool;
  reservation_id : option string;
  failed_items : option (list (string * Z * Z));
  error : option string }.

Record AvailabilityCheck := {
  ac_sku : string; ac_store_sku : string; ac_requested : Z; ac_available : Z;
  ac_sufficient : bool }.

Definition store_sku_of (store_id sku : string) : string := store_id ++ "#" ++ sku.

(** [inventory ? (quantity_available ?? 0) - (quantity_reserved ?? 0) : 0] *)
Definition available_of (inv : option Item) : Z :=
  match inv with
  | Some i => (num_or0 (i !! "quantity_available") - num_or0 (i !! "quantity_reserved"))%Z
  | None => 0%Z
  end.

(** The availability check of one item (the body of [event.items.map]). *)
Definition check_item (store_id : string) (item : OrderItem) : M AvailabilityCheck :=
  let storeSku := store_sku_of store_id (sku item) in
  result <- ddb_get INVENTORY inventory storeSku ;;
  let available := available_of result in
  ret {| ac_sku := sku item; ac_store_sku := storeSku; ac_requested := quantity item;
         ac_available := available; ac_sufficient := Z.leb (quantity item) available |}.

(** [Promise.all] over reads: the reads do not write, so running them in
    order gives the same results. *)
Fixpoint mapM {A B} (f : A -> M B) (l : list A) : M (list B) :=
  match l with
  | [] => ret []
  | x :: l' => y <- f x ;; ys <- mapM f l' ;; ret (y :: ys)
  end.

(** [ConditionExpression] of one transaction item:
    [(quantity_available - if_not_exists(quantity_reserved, :zero)) >= :qty];
    [None] when [quantity_available] does not exist (a validation error). *)
Definition reserve_condition (old : option Item) (qty : Z) : option bool :=
  match old with
  | Some i =>
      match i !! "quantity_available" with
      | Some (AN qa) => Some (Z.leb qty (qa - num_or0 (i !! "quantity_reserved")))
      | _ => None
      end
  | None => None
  end.

(** [UpdateExpression]:
    [SET quantity_reserved = if_not_exists(quantity_reserved, :zero) + :qty, updated_at = :now] *)
Definition reserve_update (qty : Z) (now : string) (i : Item) : Item :=
  <["updated_at" := AS now]> (<["quantity_reserved" := AN (num_or0 (i !! "quantity_reserved") + qty)]> i).

(** [executeTransaction] of the reservation: a [TransactWriteCommand] whose
    items are [(store_sku, qty)] updates of the inventory table.  DynamoDB
    evaluates every condition on the state before the transaction and
    applies all updates or none; two items on one key are rejected. *)
Definition executeTransaction (ops : list (string * Z)) (now : string) : M unit :=
  require INVENTORY ;;;
  inv <- gets inventory ;;
  if bool_decide (NoDup (map fst ops)) then
    let conds := map (fun '(k, q) => reserve_condition (inv !! k) q) ops in
    if existsb (fun c => match c with None => true | _ => false end) conds then
      raise ValidationException
    else if forallb (fun c => match c with Some b => b | None => false end) conds then
      modify (set_inventory
        (fold_left (fun t '(k, q) => <[k := reserve_update q now (default ∅ (t !! k))]> t) ops inv))
    else raise TransactionCanceledException
  else raise ValidationException.

Definition exn_string (e : exn) : string :=
  match e with
  | ConditionalCheckFailedException => "ConditionalCheckFailedException"
  | TransactionCanceledException => "TransactionCanceledException"
  | ValidationException => "ValidationException"
  | SyntaxError => "SyntaxError"
  | ServiceUnavailable _ => "ServiceUnavailable"
  end.

(** [handler] of reserve-inventory; [reservationId] is the ULID of
    [generateReservationId()] and [now] the current ISO time. *)
Definition reserve_inventory_handler (reservationId now : string)
    (event : ReserveInventoryRequest) : M ReserveInventoryResponse :=
  try_catch
    (availabilityChecks <- mapM (check_item (rr_store_id event)) (rr_items event) ;;
     let insufficientItems := List.filter (fun c => negb (ac_sufficient c)) availabilityChecks in
     if Nat.ltb 0 (length insufficientItems) then
       ret {| success := false; reservation_id := None;
              failed_items := Some (map (fun i => (ac_sku i, ac_requested i, ac_available i))
                                        insufficientItems);
              error := Some "Insufficient inventory" |}
     else
       executeTransaction
         (map (fun item => (store_sku_of (rr_store_id event) (sku item), quantity item))
              (rr_items event)) now ;;;
       ret {| success := true; reservation_id := Some reservationId;
              failed_items := None; error := None |})
    (fun e =>
       match e with
       | TransactionCanceledException =>
           ret {| success := false; reservation_id := None; failed_items := None;
                  error := Some "Inventory changed during reservation, please retry" |}
       | _ =>
           ret {| success := false; reservation_id := None; failed_items := None;
                  error := Some (exn_string e) |}
       end).

(** ** [order-processor/src/handlers/send-notifications.ts]: [transformToDomainEvents] *)

(** An EventBridge [PutEventsRequestEntry]: its [DetailType] and the fields
    of its JSON [Detail] ([EventBusName], [Source] and [Time] are constants
    of the function). *)
Record PutEventsRequestEntry := {
  DetailType : string;
  Detail : list (string * attr) }.

(** The [dynamodb] part of a stream record, with the images already
    [unmarshall]ed into items. *)
Record StreamRecord := { NewImage : option Item; OldImage : option Item }.

Record DynamoDBRecord := {
  eventName : option string;
  dynamodb : option StreamRecord }.

Definition transformToDomainEvents (timestamp : string) (record : DynamoDBRecord)
    : list PutEventsRequestEntry :=
  match dynamodb record with
  | None => []
  | Some d =>
      let newImage := NewImage d in
      let oldImage := OldImage d in
      let ev := eventName record in
      if bool_decide (ev = Some "INSERT") then
        match newImage with
        | Some n =>
            [{| DetailType := "Order Created";
                Detail := json_obj [("event_type", Some (AS "ORDER_CREATED"));
                                    ("order_id", n !! "order_id");
                                    ("customer_id", n !! "customer_id");
                                    ("store_id", n !! "store_id");
                                    ("county_id", n !! "county_id");
                                    ("status", n !! "status");
                                    ("total", n !! "total");
                                    ("item_count",
                                     Some (AN (match n !! "items" with
                                               | Some (AL l) => Z.of_nat (length l)
                                               | _ => 0 end)));
                                    ("timestamp", Some (AS timestamp))] |}]
        | None => []
        end
      else if bool_decide (ev = Some "MODIFY") then
        match newImage, oldImage with
        | Some n, Some o =>
            (if negb (js_strict_eq (n !! "status") (o !! "status")) then
               [{| DetailType := "Order Status Changed";
                   Detail := json_obj [("event_type", Some (AS "ORDER_STATUS_CHANGED"));
                                       ("order_id", n !! "order_id");
                                       ("customer_id", n !! "customer_id");
                                       ("store_id", n !! "store_id");
                                       ("county_id", n !! "county_id");
                                       ("old_status", o !! "status");
                                       ("new_status", n !! "status");
                                       ("total", n !! "total");
                                       ("timestamp", Some (AS timestamp))] |}]
               ++ (if js_strict_eq (n !! "status") (Some (AS (status_str CONFIRMED))) then
                     [{| DetailType := "Order Confirmed";
                         Detail := json_obj [("event_type", Some (AS "ORDER_CONFIRMED"));
                                             ("order_id", n !! "order_id");
                                             ("customer_id", n !! "customer_id");
                                             ("store_id", n !! "store_id");
                                             ("county_id", n !! "county_id");
                                             ("total", n !! "total");
                                             ("items", n !! "items");
                                             ("shipping_address", n !! "shipping_address");
                                             ("timestamp", Some (AS timestamp))] |}]
                   else [])
               ++ (if js_strict_eq (n !! "status") (Some (AS (status_str CANCELLED))) then
                     [{| DetailType := "Order Cancelled";
                         Detail := json_obj [("event_type", Some (AS "ORDER_CANCELLED"));
                                             ("order_id", n !! "order_id");
                                             ("customer_id", n !! "customer_id");
                                             ("store_id", n !! "store_id");
                                             ("county_id", n !! "county_id");
                                             ("total", n !! "total");
                                             ("timestamp", Some (AS timestamp))] |}]
                   else [])
               ++ (if js_strict_eq (n !! "status") (Some (AS (status_str SHIPPED))) then
                     [{| DetailType := "Order Shipped";
                         Detail := json_obj [("event_type", Some (AS "ORDER_SHIPPED"));
                                             ("order_id", n !! "order_id");
                                             ("customer_id", n !! "customer_id");
                                             ("store_id", n !! "store_id");
                                             ("shipping_address", n !! "shipping_address");
                                             ("timestamp", Some (AS timestamp))] |}]
                   else [])
             else [])
            ++ (if negb (js_strict_eq (n !! "payment_state") (o !! "payment_state")) then
                  [{| DetailType := "Payment State Changed";
                      Detail := json_obj [("event_type", Some (AS "PAYMENT_STATE_CHANGED"));
                                          ("order_id", n !! "order_id");
                                          ("customer_id", n !! "customer_id");
                                          ("old_state", o !! "payment_state");
                                          ("new_state", n !! "payment_state");
                                          ("total", n !! "total");
                                          ("timestamp", Some (AS timestamp))] |}]
                else [])
        | _, _ => []
        end
      else if bool_decide (ev = Some "REMOVE") then
        match oldImage with
        | Some o =>
            [{| DetailType := "Order Deleted";
                Detail := json_obj [("event_type", Some (AS "ORDER_DELETED"));
                                    ("order_id", o !! "order_id");
                                    ("customer_id", o !! "customer_id");
                                    ("timestamp", Some (AS timestamp))] |}]
        | None => []
        end
      else []
  end.

(** ** The saga orchestrator (the SQS consumer of the order queue) *)

Record OrderProcessingMessage := {
  msg_order_id : string; msg_customer_id : string; msg_order_ts_id : string;
  msg_action : string; msg_timestamp : string }.

(** An SQS record; [body] is [JSON.parse(record.body)], [None] when the
    body does not parse. *)
Record SQSRecord := { messageId : string; body_msg : option OrderProcessingMessage }.

Record InvokeResult := {
  inv_success : bool; inv_data : option (list (string * attr)); inv_error : option string }.

(** What [lambdaClient.send(new InvokeCommand(...))] gives back: it throws,
    or answers with a [FunctionError] and an optional [errorMessage], or
    answers with a payload. *)
Inductive InvokeResponse :=
| InvokeThrew (msg : string)
| FunctionError (errorMessage : option string)
| InvokePayload (data : list (string * attr)).

Definition RESERVE_INVENTORY_FN := "RESERVE_INVENTORY_FN_ARN".
Definition PROCESS_PAYMENT_FN := "PROCESS_PAYMENT_FN_ARN".
Definition SEND_NOTIFICATIONS_FN := "SEND_NOTIFICATIONS_FN_ARN".

Section Saga.
(** The answers of the invoked functions, as seen by the orchestrator. *)
Variable lambda_response : string -> list (string * attr) -> bool -> InvokeResponse.
(** [new Date().toISOString()] inside [updateOrderStatus]. *)
Variable now : string.

(** [invokeFunction]: a sent invocation is recorded in the outbox. *)
Definition invokeFunction (functionArn : string) (payload : list (string * attr))
    (async : bool) : M InvokeResult :=
  match lambda_response functionArn payload async with
  | InvokeThrew m => ret {| inv_success := false; inv_data := None; inv_error := Some m |}
  | resp =>
      modify (emit (LambdaInvoke functionArn payload async)) ;;;
      if async then ret {| inv_success := true; inv_data := None; inv_error := None |}
      else match resp with
           | FunctionError m =>
               ret {| inv_success := false; inv_data := None;
                      inv_error := Some (default "Function error" m) |}
           | InvokePayload d => ret {| inv_success := true; inv_data := Some d; inv_error := None |}
           | InvokeThrew m => ret {| inv_success := false; inv_data := None; inv_error := Some m |}
           end
  end.

Definition order_ts_id_of (order : Item) : string :=
  str_field order "order_ts" ++ "#" ++ str_field order "order_id".

(** [failOrder]: errors are logged and swallowed. *)
Definition failOrder (message : OrderProcessingMessage) (reason : string) : M unit :=
  try_catch
    (order <- getOrderById (msg_order_id message) ;;
     (match order with
      | Some o =>
          updateOrderStatus (msg_customer_id message) (order_ts_id_of o)
            (msg_order_id message) FAILED (Some PENDING) now ;;; ret tt
      | None => ret tt
      end) ;;;
     invokeFunction SEND_NOTIFICATIONS_FN
       [("order_id", AS (msg_order_id message)); ("customer_id", AS (msg_customer_id message));
        ("status", AS (status_str FAILED)); ("reason", AS reason)] true ;;;
     ret tt)
    (fun _ => ret tt).

(** The body of the [for] loop on one record: [true] when the record is
    pushed to [batchItemFailures]. *)
Definition process_record (record : SQSRecord) : M bool :=
  try_catch
    (match body_msg record with
     | None => raise SyntaxError
     | Some message =>
         order <- getOrderById (msg_order_id message) ;;
         match order with
         | None => ret false
         | Some o =>
             if negb (js_strict_eq (o !! "status") (Some (AS (status_str PENDING)))) then
               ret false
             else
               inventoryResult <- invokeFunction RESERVE_INVENTORY_FN
                 (json_obj [("order_id", Some (AS (msg_order_id message)));
                            ("customer_id", Some (AS (msg_customer_id message)));
                            ("items", o !! "items"); ("store_id", o !! "store_id")]) false ;;
               if negb (inv_success inventoryResult) then
                 failOrder message "Inventory reservation failed" ;;; ret false
               else
                 paymentResult <- invokeFunction PROCESS_PAYMENT_FN
                   (json_obj [("order_id", Some (AS (msg_order_id message)));
                              ("customer_id", Some (AS (msg_customer_id message)));
                              ("amount", o !! "total")]) false ;;
                 if negb (inv_success paymentResult) then
                   failOrder message "Payment processing failed" ;;; ret false
                 else
                   updated <- updateOrderStatus (msg_customer_id message) (order_ts_id_of o)
                                (msg_order_id message) CONFIRMED (Some PENDING) now ;;
                   if negb updated then ret true
                   else
                     invokeFunction SEND_NOTIFICATIONS_FN
                       (json_obj [("order_id", Some (AS (msg_order_id message)));
                                  ("customer_id", Some (AS (msg_customer_id message)));
                                  ("status", Some (AS (status_str CONFIRMED)));
                                  ("total", o !! "total")]) true ;;;
                     ret false
         end
     end)
    (fun _ => ret true).

(** The loop of [handler] over [event.Records]: the [itemIdentifier]s of
    [batchItemFailures], in order. *)
Fixpoint process_records (records : list SQSRecord) : M (list string) :=
  match records with
  | [] => ret []
  | record :: rest =>
      failed <- process_record record ;;
      failures <- process_records rest ;;
      ret (if failed then messageId record :: failures else failures)
  end.
End Saga.

Definition saga_handler (lambda_response : string -> list (string * attr) -> bool -> InvokeResponse)
    (now : string) (records : list SQSRecord) : M (list string) :=
  process_records lambda_response now records.

(** ** The payment handler *)

Record ProcessPaymentRequest := {
  pp_order_id : string; pp_customer_id : string; pp_amount : float }.

Record ProcessPaymentResponse := {
  pay_success : bool; transaction_id : option string;
  pay_payment_state : option PaymentState; pay_error : option string }.

(** [simulatePayment]; [random] is [Math.random()]. *)
Definition simulatePayment (amount random : float) : bool :=
  if PrimFloat.leb amount 0 then false else PrimFloat.ltb random 0.95.

(** [handler] of the payment function; [now] is [new Date().toISOString()],
    [random] the [Math.random()] of [simulatePayment], [date_now] and
    [rand36] the parts of the transaction id. *)
Definition process_payment_handler (now : string) (random : float) (date_now rand36 : string)
    (event : ProcessPaymentRequest) : M ProcessPaymentResponse :=
  try_catch
    (let paymentSuccess := simulatePayment (pp_amount event) random in
     let transactionId := "TXN-" ++ date_now ++ "-" ++ rand36 in
     let paymentState := if paymentSuccess then CAPTURED else PS_FAILED in
     ddb_update ORDERS_BY_ID orders_by_id set_orders_by_id (pp_order_id event)
       (by_id_key_attrs (pp_order_id event))
       (fun it => <["updated_at" := AS now]> (<["payment_state" := AS (payment_str paymentState)]> it))
       no_condition ;;;
     if paymentSuccess then
       ret {| pay_success := true; transaction_id := Some transactionId;
              pay_payment_state := Some CAPTURED; pay_error := None |}
     else
       ret {| pay_success := false; transaction_id := None;
              pay_payment_state := Some PS_FAILED; pay_error := Some "Payment declined" |})
    (fun e => ret {| pay_success := false; transaction_id := None;
                     pay_payment_state := None; pay_error := Some (exn_string e) |}).

(** ** [order-api/src/handlers/get-order.ts] *)

(** [handler] of get-order ([GET /orders/{order_id}]). *)
Definition get_order_handler (ev : ApiEvent) : M Response :=
  try_catch
    (match ev_order_id_param ev with
     | None | Some "" => ret (err_response 400 "Missing order_id parameter")
     | Some orderId =>
         order <- getOrderById orderId ;;
         match order with
         | None => ret {| statusCode := 404;
                          body := [("error", AS "Order not found"); ("order_id", AS orderId)] |}
         | Some o =>
             ret {| statusCode := 200;
                    body := json_obj [("order_id", o !! "order_id");
                                      ("customer_id", o !! "customer_id");
                                      ("status", o !! "status");
                                      ("payment_state", o !! "payment_state");
                                      ("store_id", o !! "store_id");
                                      ("county_id", o !! "county_id");
                                      ("items", o !! "items");
                                      ("subtotal", o !! "subtotal");
                                      ("tax", o !! "tax");
                                      ("total", o !! "total");
                                      ("shipping_address", o !! "shipping_address");
                                      ("created_at", o !! "created_at");
                                      ("updated_at", o !! "updated_at")] |}
         end
     end)
    (fun _ => ret (err_response 500 "Internal server error")).

(** ** [listOrdersByCustomer] and the list-orders handler *)

(** The order of [ScanIndexForward: false] on the sort key [order_ts_id]:
    DynamoDB compares string sort keys bytewise, as [String.compare] does
    on ASCII strings. *)
Definition newer_first (a b : string * Item) : Prop := String.le (fst b) (fst a).

Instance newer_first_dec : RelDecision newer_first.
Proof. intros a b. unfold newer_first. apply _. Defined.

(** The items of partition [cid] of the orders table, as
    [(order_ts_id, item)], newest first. *)
Definition customer_rows (t : gmap (string * string) Item) (cid : string) : list (string * Item) :=
  merge_sort newer_first
    (map (fun kv => (snd (fst kv), snd kv))
         (List.filter (fun kv => bool_decide (fst (fst kv) = cid)) (map_to_list t))).

(** [QueryCommand] on [customer_id = :cid] with [ScanIndexForward: false],
    [Limit] and [ExclusiveStartKey] (a full primary key).  DynamoDB rejects
    [Limit < 1] and a start key of another partition; it stops after
    [Limit] items and then returns the last one's key as
    [LastEvaluatedKey].  Pages are assumed to stay under the 1 MB cap of a
    Query response. *)
Definition query_customer (cid : string) (limit : nat) (start : option (string * string))
    : M (list Item * option (string * string)) :=
  require ORDERS ;;;
  t <- gets orders ;;
  if Nat.eqb limit 0 then raise ValidationException else
  match start with
  | Some (c, _) => if String.eqb c cid then ret tt else raise ValidationException
  | None => ret tt
  end ;;;
  let rows := customer_rows t cid in
  let after := match start with
               | None => rows
               | Some (_, sk) => List.filter (fun r => String.ltb (fst r) sk) rows
               end in
  let page := firstn limit after in
  ret (map snd page,
       if Nat.leb limit (length after)
       then option_map (fun r => (cid, fst r)) (last page)
       else None).

(** [listOrdersByCustomer]: [nextToken] is [JSON.stringify] of the
    [LastEvaluatedKey] of an earlier page and is parsed back into that key;
    the token is represented by the key it encodes. *)
Definition listOrdersByCustomer (customerId : string) (limit : nat)
    (nextToken : option (string * string)) : M (list Item * option (string * string)) :=
  query_customer customerId limit nextToken.

(** [parseInt(s, 10)] on an ASCII string: leading white space, an optional
    sign, then the longest run of decimal digits; [None] is [NaN]. *)
Definition js_space (c : ascii) : bool :=
  let n := Ascii.nat_of_ascii c in (Nat.eqb n 32 || (9 <=? n) && (n <=? 13))%nat.

Definition digit_val (c : ascii) : option Z :=
  let n := Ascii.nat_of_ascii c in
  if ((48 <=? n) && (n <=? 57))%nat then Some (Z.of_nat n - 48)%Z else None.

Fixpoint trim_start (s : string) : string :=
  match s with
  | String c s' => if js_space c then trim_start s' else s
  | EmptyString => EmptyString
  end.

(** The digits at the front of [s], read onto the accumulator [acc]; the
    result also tells whether at least one digit was read. *)
Fixpoint digits_prefix (s : string) (acc : Z) (seen : bool) : option Z :=
  match s with
  | String c s' =>
      match digit_val c with
      | Some d => digits_prefix s' (10 * acc + d)%Z true
      | None => if seen then Some acc else None
      end
  | EmptyString => if seen then Some acc else None
  end.

Definition parseInt10 (s : string) : option Z :=
  match trim_start s with
  | String "-"%char s' => option_map Z.opp (digits_prefix s' 0 false)
  | String "+"%char s' => digits_prefix s' 0 false
  | s' => digits_prefix s' 0 false
  end.

Record ListEvent := {
  qp_customer_id : option string;
  qp_limit : option string;
  qp_next_token : option (string * string) }.

Definition order_summary (o : Item) : attr :=
  AM (json_obj [("order_id", o !! "order_id");
                ("customer_id", o !! "customer_id");
                ("status", o !! "status");
                ("payment_state", o !! "payment_state");
                ("items", o !! "items");
                ("subtotal", o !! "subtotal");
                ("tax", o !! "tax");
                ("total", o !! "total");
                ("created_at", o !! "created_at")]).

Definition key_attr (k : string * string) : attr :=
  AM [("customer_id", AS (fst k)); ("order_ts_id", AS (snd k))].

(** [handler] of list-orders ([GET /orders?customer_id&limit&next_token]). *)
Definition list_orders_handler (ev : ListEvent) : M Response :=
  try_catch
    (match qp_customer_id ev with
     | None | Some "" => ret (err_response 400 "Missing customer_id query parameter")
     | Some customerId =>
         let limit :=
           match qp_limit ev with
           | None | Some "" => Some 20%Z
           | Some limitStr =>
               match parseInt10 limitStr with
               | Some parsed => if ((parsed <? 1) || (100 <? parsed))%Z then None else Some parsed
               | None => None
               end
           end in
         match limit with
         | None => ret (err_response 400 "Invalid limit parameter. Must be between 1 and 100")
         | Some limit =>
             result <- listOrdersByCustomer customerId (Z.to_nat limit) (qp_next_token ev) ;;
             ret {| statusCode := 200;
                    body := json_obj [("orders", Some (AL (map order_summary (fst result))));
                                      ("next_token", option_map key_attr (snd result))] |}
         end
     end)
    (fun _ => ret (err_response 500 "Internal server error")).

(** ** [buildNotificationMessage] of send-notifications *)

Record SendNotificationRequest := {
  sn_order_id : string; sn_customer_id : string; sn_status : string;
  sn_total : option float; sn_reason : option string }.

Record NotificationMessage := {
  nm_type : string; nm_order_id : string; nm_customer_id : string;
  nm_status : string; nm_timestamp : string; nm_details : list (string * attr) }.

(** [event.reason || "Unknown error"] *)
Definition reason_or_default (r : option string) : string :=
  match r with None | Some "" => "Unknown error" | Some s => s end.

Definition buildNotificationMessage (timestamp : string) (event : SendNotificationRequest)
    : NotificationMessage :=
  let details :=
    if String.eqb (sn_status event) (status_str CONFIRMED) then
      json_obj [("message", Some (AS "Your order has been confirmed!"));
                ("total", AF <$> sn_total event);
                ("next_step", Some (AS "Your order is being prepared for shipment."))]
    else if String.eqb (sn_status event) (status_str FAILED) then
      [("message", AS "Unfortunately, your order could not be processed.");
       ("reason", AS (reason_or_default (sn_reason event)));
       ("next_step", AS "Please try placing your order again or contact support.")]
    else if String.eqb (sn_status event) (status_str CANCELLED) then
      [("message", AS "Your order has been cancelled.");
       ("next_step", AS "If you did not request this cancellation, please contact support.")]
    else if String.eqb (sn_status event) (status_str SHIPPED) then
      [("message", AS "Your order has been shipped!");
       ("next_step", AS "Track your package using the tracking number in your email.")]
    else if String.eqb (sn_status event) (status_str DELIVERED) then
      [("message", AS "Your order has been delivered!");
       ("next_step", AS "We hope you enjoy your purchase. Please leave a review!")]
    else
      [("message", AS ("Order status updated to " ++ sn_status event))] in
  {| nm_type := "ORDER_" ++ sn_status event; nm_order_id := sn_order_id event;
     nm_customer_id := sn_customer_id event; nm_status := sn_status event;
     nm_timestamp := timestamp; nm_details := details |}.

(** ** The stream handler of send-notifications and [publishEvents] *)

(** [events.slice(i, i + batchSize)] for [i = 0, 10, 20, ...] while
    [i < events.length]; [fuel] bounds the number of rounds. *)
Fixpoint event_batches {A} (fuel i : nat) (events : list A) : list (list A) :=
  match fuel with
  | O => []
  | S fuel' =>
      if (i <? length events)%nat
      then firstn 10 (skipn i events) :: event_batches fuel' (i + 10) events
      else []
  end.

Section Publish.
(** [eventBridgeClient.send(new PutEventsCommand({ Entries }))]: [None] when
    the call throws, [Some c] with [c] the [FailedEntryCount] otherwise. *)
Variable put_events : list PutEventsRequestEntry -> option Z.

(** The calls made, in order, and whether [publishEvents] returned normally. *)
Fixpoint publish_batches (batches : list (list PutEventsRequestEntry))
    : list (list PutEventsRequestEntry) * bool :=
  match batches with
  | [] => ([], true)
  | batch :: rest =>
      match put_events batch with
      | None => ([batch], false)
      | Some c =>
          if (0 <? c)%Z then ([batch], false)
          else let '(sent, ok) := publish_batches rest in (batch :: sent, ok)
      end
  end.

Definition publishEvents (events : list PutEventsRequestEntry)
    : list (list PutEventsRequestEntry) * bool :=
  publish_batches (event_batches (length events) 0 events).

(** A stream record: its [eventID], the time [transformToDomainEvents]
    reads with [new Date()], and the change itself. *)
Record StreamEventRecord := {
  eventID : option string; seen_at : string; change : DynamoDBRecord }.

(** [handler] of the stream consumer: the [PutEvents] calls made and the
    [itemIdentifier]s of [batchItemFailures].  [transformToDomainEvents]
    works on unmarshalled images and does not throw. *)
Definition stream_handler (records : list StreamEventRecord)
    : list (list PutEventsRequestEntry) * list string :=
  let eventsToPublish := concat (map (fun r => transformToDomainEvents (seen_at r) (change r)) records) in
  if (0 <? length eventsToPublish)%nat then
    let '(sent, ok) := publishEvents eventsToPublish in
    (sent, if ok then [] else omap eventID records)
  else ([], []).
End Publish.

(** ** [generateOrderSortKey] and [parseOrderSortKey] *)

(** [s.split(c)] for a one-character separator. *)
Fixpoint split_on (c : ascii) (s : string) : list string :=
  match s with
  | EmptyString => [EmptyString]
  | String x s' =>
      if Ascii.eqb x c then EmptyString :: split_on c s'
      else match split_on c s' with
           | part :: parts => String x part :: parts
           | [] => [String x EmptyString]
           end
  end.

(** [`${timestamp}#${orderId}`]; [timestamp] is [new Date().toISOString()]. *)
Definition generateOrderSortKey (timestamp orderId : string) : string :=
  timestamp ++ "#" ++ orderId.

(** [const [timestamp, orderId] = sortKey.split("#")]: [orderId] is
    [undefined] when there is no ["#"]. *)
Definition parseOrderSortKey (sortKey : string) : string * option string :=
  match split_on "#"%char sortKey with
  | ts :: rest => (ts, head rest)
  | [] => ("", None)
  end.

(** ** Further definitions used by the properties *)

(** The idempotency key the handler reads:
    [headers["X-Idempotency-Key"] ?? headers["x-idempotency-key"]]. *)
Definition idempotency_header (ev : ApiEvent) : option string :=
  match header (ev_headers ev) "X-Idempotency-Key" with
  | Some k => Some k
  | None => header (ev_headers ev) "x-idempotency-key"
  end.

Definition process_order_message (orderId orderTs cid : string) : list (string * attr) :=
  [("order_id", AS orderId); ("customer_id", AS cid);
   ("order_ts_id", AS (orderTs ++ "#" ++ orderId));
   ("action", AS "PROCESS_ORDER"); ("timestamp", AS orderTs)].

(** Strictly newer first: the sort key of [a] is after that of [b]. *)
Definition strictly_newer (a b : string * Item) : Prop := String.ltb (fst b) (fst a) = true.

(** The rows of partition [cid] after the start key, as the query reads them. *)
Definition after_rows (t : gmap (string * string) Item) (cid : string)
    (start : option (string * string)) : list (string * Item) :=
  match start with
  | None => customer_rows t cid
  | Some (_, sk) => List.filter (fun r => String.ltb (fst r) sk) (customer_rows t cid)
  end.

(** A string of decimal digits only. *)
Fixpoint all_digits (s : string) : bool :=
  match s with
  | EmptyString => true
  | String c s' => match digit_val c with Some _ => all_digits s' | None => false end
  end.

(** The payloads [process_record] sends for a message and its order. *)
Definition reserve_payload (message : OrderProcessingMessage) (o : Item) : list (string * attr) :=
  json_obj [("order_id", Some (AS (msg_order_id message)));
            ("customer_id", Some (AS (msg_customer_id message)));
            ("items", o !! "items"); ("store_id", o !! "store_id")].

Definition payment_payload (message : OrderProcessingMessage) (o : Item) : list (string * attr) :=
  json_obj [("order_id", Some (AS (msg_order_id message)));
            ("customer_id", Some (AS (msg_customer_id message)));
            ("amount", o !! "total")].

Definition confirm_payload (message : OrderProcessingMessage) (o : Item) : list (string * attr) :=
  json_obj [("order_id", Some (AS (msg_order_id message)));
            ("customer_id", Some (AS (msg_customer_id message)));
            ("status", Some (AS (status_str CONFIRMED)));
            ("total", o !! "total")].

Definition fail_payload (message : OrderProcessingMessage) (reason : string) : list (string * attr) :=
  [("order_id", AS (msg_order_id message)); ("customer_id", AS (msg_customer_id message));
   ("status", AS (status_str FAILED)); ("reason", AS reason)].

(** ** Concrete data *)

Definition modify_record (n o : Item) : DynamoDBRecord :=
  {| eventName := Some "MODIFY"; dynamodb := Some {| NewImage := Some n; OldImage := Some o |} |}.

Definition image (st ps : string) : Item :=
  list_to_map [("order_id", AS "ORD-1"); ("customer_id", AS "CUST-001");
               ("status", AS st); ("payment_state", AS ps)].

Definition saga_world : World :=
  {| orders := {[ ("CUST-001", "T#ORD-1") := image "CONFIRMED" "CAPTURED" ]};
     orders_by_id := {[ "ORD-1" := image "CONFIRMED" "CAPTURED" ]};
     inventory := ∅; outbox := []; unavailable := [] |}.

Definition saga_message : OrderProcessingMessage :=
  {| msg_order_id := "ORD-1"; msg_customer_id := "CUST-001"; msg_order_ts_id := "T#ORD-1";
     msg_action := "PROCESS_ORDER"; msg_timestamp := "T" |}.

Definition saga_record : SQSRecord := {| messageId := "m-1"; body_msg := Some saga_message |}.

(** Every invoked function answers with an empty payload. *)
Definition lambda_ok : string -> list (string * attr) -> bool -> InvokeResponse :=
  fun _ _ _ => InvokePayload [].



Definition empty_world : World :=
  {| orders := ∅; orders_by_id := ∅; inventory := ∅; outbox := []; unavailable := [] |}.

Definition scenario_address : Address :=
  {| street := "1 Main St"; city := "Austin"; state := "TX"; zip := "78701" |}.

(** The spec's scenario: WINE-001 x2 at 25.00, BEER-001 x6 at 8.00. *)
Definition scenario_request : CreateOrderRequest :=
  {| rq_customer_id := "CUST-001"; rq_store_id := "STORE-001"; rq_county_id := "COUNTY-001";
     rq_items := [{| ci_sku := "WINE-001"; ci_name := "Wine"; ci_quantity := 2;
                     ci_unit_price := 25%float |};
                  {| ci_sku := "BEER-001"; ci_name := "Beer"; ci_quantity := 6;
                     ci_unit_price := 8%float |}];
     rq_shipping_address := scenario_address |}.

Definition scenario_event : ApiEvent :=
  {| ev_headers := [("X-Idempotency-Key", "retry-key-0001")];
     ev_body := Some scenario_request; ev_order_id_param := None |}.

Definition float_close (x y : float) : bool :=
  PrimFloat.leb (PrimFloat.abs (x - y)) 0.01.

Definition attr_close (a : option attr) (y : float) : bool :=
  match a with Some (AF x) => float_close x y | _ => false end.

Definition resp_code (r : exn + Response) : Z :=
  match r with inr r => statusCode r | inl _ => 0 end.

Definition scenario_ts : string := "2026-01-01T00:00:00.000Z".

(** The stored totals of the spec's scenario, within 1e-2 of 98.00, 7.84
    and 105.84. *)
Definition scenario_totals_ok : bool :=
  let '(w1, r1) := create_order_handler "ORD-SCENARIO" scenario_ts scenario_event empty_world in
  Z.eqb (resp_code r1) 201 &&
  match orders w1 !! ("CUST-001", scenario_ts ++ "#" ++ "ORD-SCENARIO") with
  | Some it => attr_close (it !! "subtotal") 98 && attr_close (it !! "tax") 7.84
               && attr_close (it !! "total") 105.84
  | None => false
  end.

Definition stale_world : World :=
  {| orders := {[ ("CUST-001", "T#ORD-1") :=
                  list_to_map [("customer_id", AS "CUST-001"); ("order_ts_id", AS "T#ORD-1");
                               ("order_id", AS "ORD-1"); ("status", AS "CANCELLED")] ]};
     orders_by_id := {[ "ORD-1" := list_to_map [("order_id", AS "ORD-1"); ("status", AS "CANCELLED")] ]};
     inventory := ∅; outbox := []; unavailable := [] |}.

Definition not_found_response (orderId : string) : Response :=
  {| statusCode := 404; body := [("error", AS "Order not found"); ("order_id", AS orderId)] |}.

Definition not_cancellable_response (orderId : string) (o : Item) : Response :=
  {| statusCode := 409;
     body := json_obj [("error", Some (AS "Order cannot be cancelled"));
                       ("order_id", Some (AS orderId));
                       ("current_status", o !! "status");
                       ("message", Some (AS "Order can only be cancelled when status is PENDING or CONFIRMED"))] |}.

Definition set_status_item (s : OrderStatus) (now : string) (it : Item) : Item :=
  <["updated_at" := AS now]> (<["status" := AS (status_str s)]> it).

(** The availability of an item in a world, as [check_item] computes it. *)
Definition item_available (w : World) (store_id : string) (i : OrderItem) : Z :=
  available_of (inventory w !! store_sku_of store_id (sku i)).

Definition reserve_world : World :=
  {| orders := ∅; orders_by_id := ∅;
     inventory := list_to_map [
       ("S1#WINE-001", list_to_map [("store_sku", AS "S1#WINE-001");
                                    ("quantity_available", AN 5); ("quantity_reserved", AN 3)]);
       ("S1#BEER-001", list_to_map [("store_sku", AS "S1#BEER-001");
                                    ("quantity_available", AN 50); ("quantity_reserved", AN 0)])];
     outbox := []; unavailable := [] |}.

Definition reserve_line (s : string) (q : Z) : OrderItem :=
  {| sku := s; name := s; quantity := q; unit_price := 1%float; total_price := 1%float |}.

Definition reserve_request (its : list OrderItem) : ReserveInventoryRequest :=
  {| rr_order_id := "ORD-1"; rr_customer_id := "CUST-001"; rr_store_id := "S1"; rr_items := its |}.

Definition no_key_event : ApiEvent :=
  {| ev_headers := []; ev_body := Some scenario_request; ev_order_id_param := None |}.

Definition no_body_event : ApiEvent :=
  {| ev_headers := [("x-idempotency-key", "key-2")]; ev_body := None; ev_order_id_param := None |}.

Definition created_order : Order := make_order "ORD-1" scenario_ts "retry-key-0001" scenario_request.

(** The tables once the spec's scenario has been stored as [ORD-1]. *)
Definition created_world : World :=
  {| orders := {[ ("CUST-001", scenario_ts ++ "#" ++ "ORD-1") := order_item created_order ]};
     orders_by_id := {[ "ORD-1" := order_by_id_item created_order ]};
     inventory := ∅; outbox := []; unavailable := [] |}.

Definition queue_down_world : World :=
  {| orders := ∅; orders_by_id := ∅; inventory := ∅; outbox := []; unavailable := [ORDER_QUEUE] |}.

Definition summary_item (oid : string) : Item :=
  list_to_map [("order_id", AS oid); ("customer_id", AS "C1"); ("status", AS "PENDING")].

Definition history_world : World :=
  {| orders := list_to_map [(("C1", "T1#A"), summary_item "A"); (("C1", "T2#B"), summary_item "B");
                            (("C2", "T3#C"), summary_item "C")];
     orders_by_id := ∅; inventory := ∅; outbox := []; unavailable := [] |}.

Definition get_event : ApiEvent :=
  {| ev_headers := []; ev_body := None; ev_order_id_param := Some "ORD-1" |}.


Definition by_id_down_world : World :=
  {| orders := orders stale_world; orders_by_id := orders_by_id stale_world;
     inventory := ∅; outbox := []; unavailable := [ORDERS_BY_ID] |}.

Definition stale_item : Item :=
  list_to_map [("customer_id", AS "CUST-001"); ("order_ts_id", AS "T#ORD-1");
               ("order_id", AS "ORD-1"); ("status", AS "CANCELLED")].

Definition insert_record : DynamoDBRecord :=
  {| eventName := Some "INSERT";
     dynamodb := Some {| NewImage := Some (image "PENDING" "PENDING"); OldImage := None |} |}.

Definition no_entry : PutEventsRequestEntry := {| DetailType := ""; Detail := [] |}.

Definition numbered_events (n : nat) : list PutEventsRequestEntry :=
  map (fun k => {| DetailType := "Order Created"; Detail := [("n", AN (Z.of_nat k))] |}) (seq 0 n).

Definition put_ok : list PutEventsRequestEntry -> option Z := fun _ => Some 0%Z.
Definition put_throws : list PutEventsRequestEntry -> option Z := fun _ => None.

Definition stream_records : list StreamEventRecord :=
  [{| eventID := Some "e-1"; seen_at := "T"; change := insert_record |};
   {| eventID := Some "e-2"; seen_at := "T";
      change := modify_record (image "CONFIRMED" "CAPTURED") (image "PENDING" "PENDING") |}].

Definition failed_notification : SendNotificationRequest :=
  {| sn_order_id := "ORD-1"; sn_customer_id := "CUST-001"; sn_status := "FAILED";
     sn_total := None; sn_reason := None |}.

Definition pending_item : Item :=
  list_to_map [("order_id", AS "ORD-1"); ("customer_id", AS "CUST-001"); ("order_ts", AS "T");
               ("status", AS "PENDING"); ("payment_state", AS "PENDING"); ("total", AF 10)].

Definition pending_world : World :=
  {| orders := {[ ("CUST-001", "T#ORD-1") := pending_item ]};
     orders_by_id := {[ "ORD-1" := pending_item ]};
     inventory := ∅; outbox := []; unavailable := [] |}.

(** Reserve answers with a function error; every other function with an
    empty payload. *)
Definition lambda_no_stock : string -> list (string * attr) -> bool -> InvokeResponse :=
  fun arn _ _ => if String.eqb arn RESERVE_INVENTORY_FN then FunctionError (Some "out of stock")
                 else InvokePayload [].


Example scenario_first_call :
  statusCode (match snd (create_order_handler "ORD-A" "2026-01-01T00:00:00.000Z"
                           scenario_event empty_world) with
              | inr r => r | inl _ => err_response 0 "" end) = 201%Z.
Proof. vm_compute. reflexivity. Qed.

Ltac run_m :=
  cbv beta iota zeta delta [try_catch bind ret raise modify gets require ddb_get
    ddb_put ddb_update createOrder getOrderByCustomer getOrderById updateOrderStatus
    sendOrderMessage attribute_not_exists no_condition status_is].


Lemma is_up_set_orders s t w : is_up s (set_orders t w) = is_up s w.
Proof. reflexivity. Qed.

Lemma order_item_customer_id o : order_item o !! "customer_id" = Some (AS (customer_id o)).
Proof. reflexivity. Qed.

(** The repository operation alone is idempotent on the order key: a second
    [createOrder] of an order at the same key leaves the tables as they are
    and returns the stored order with [created = false]. *)
Lemma createOrder_same_key_twice (o : Order) (w : World) :
  is_up ORDERS w = true -> is_up ORDERS_BY_ID w = true ->
  orders w !! (customer_id o, order_ts_id o) = None ->
  let '(w1, r1) := createOrder o w in
  let '(w2, r2) := createOrder o w1 in
  r1 = inr (true, order_item o) /\ r2 = inr (false, order_item o) /\ w2 = w1.
Proof.
  intros Hup1 Hup2 Hfresh.
  run_m. rewrite Hup1, Hfresh. run_m.
  change (is_up ORDERS_BY_ID (set_orders _ w)) with (is_up ORDERS_BY_ID w).
  rewrite Hup2. run_m.
  change (is_up ORDERS (set_orders_by_id _ (set_orders _ w))) with (is_up ORDERS w).
  rewrite Hup1. cbn [orders set_orders_by_id set_orders]. rewrite lookup_insert_eq.
  run_m. rewrite order_item_customer_id. run_m.
  change (is_up ORDERS (set_orders_by_id _ (set_orders _ w))) with (is_up ORDERS w).
  rewrite Hup1. cbn [orders set_orders_by_id set_orders]. rewrite lookup_insert_eq.
  auto.
Qed.

Ltac run_h :=
  cbv beta iota zeta delta [try_catch bind ret raise modify gets require
    sendOrderMessage create_order_handler].

Section TableSpecs.
Context {K : Type} `{Countable K}.
Variables (svc : service) (tbl : World -> gmap K Item) (set_tbl : gmap K Item -> World -> World).

Lemma ddb_get_spec k w :
  ddb_get svc tbl k w =
    if is_up svc w then (w, inr (tbl w !! k)) else (w, inl (ServiceUnavailable svc)).
Proof. unfold ddb_get, bind, require, gets. now destruct (is_up svc w). Qed.

Lemma ddb_put_spec k it cond w :
  ddb_put svc tbl set_tbl k it cond w =
    if is_up svc w then
      if cond (tbl w !! k) then (set_tbl (<[k := it]> (tbl w)) w, inr tt)
      else (w, inl ConditionalCheckFailedException)
    else (w, inl (ServiceUnavailable svc)).
Proof.
  unfold ddb_put, bind, require, gets, modify, raise.
  destruct (is_up svc w); [now destruct (cond _)|reflexivity].
Qed.

Lemma ddb_update_spec k ka upd cond w :
  ddb_update svc tbl set_tbl k ka upd cond w =
    if is_up svc w then
      if cond (tbl w !! k) then (set_tbl (<[k := upd (default ka (tbl w !! k))]> (tbl w)) w, inr tt)
      else (w, inl ConditionalCheckFailedException)
    else (w, inl (ServiceUnavailable svc)).
Proof.
  unfold ddb_update, bind, require, gets, modify, raise.
  destruct (is_up svc w); [now destruct (cond _)|reflexivity].
Qed.
End TableSpecs.

Lemma createOrder_created_stores (o : Order) (w w1 : World) (it : Item) :
  createOrder o w = (w1, inr (true, it)) ->
  it = order_item o /\ orders w1 !! (customer_id o, order_ts_id o) = Some (order_item o).
Proof.
  unfold createOrder, try_catch, bind, ret. rewrite ddb_put_spec.
  destruct (is_up ORDERS w) eqn:U1; [|discriminate].
  destruct (attribute_not_exists _ _) eqn:C; cbn iota.
  - rewrite ddb_put_spec. destruct (is_up ORDERS_BY_ID _); [|discriminate].
    cbv beta iota. intros [= <- <-]. split; [reflexivity|].
    cbn [orders set_orders_by_id set_orders]. now rewrite lookup_insert_eq.
  - unfold getOrderByCustomer. rewrite ddb_get_spec, U1.
    destruct (orders w !! _); discriminate.
Qed.

(** Every answer 201 of the create handler comes with the built order stored
    at its key. *)
Lemma create_order_handler_201_stores (orderId orderTs : string) (ev : ApiEvent)
    (r : CreateOrderRequest) (w w' : World) (resp : Response) :
  ev_body ev = Some r ->
  create_order_handler orderId orderTs ev w = (w', inr resp) ->
  statusCode resp = 201%Z ->
  exists key, orders w' !! (rq_customer_id r, orderTs ++ "#" ++ orderId) =
              Some (order_item (make_order orderId orderTs key r)).
Proof.
  intros Hb. run_h. rewrite Hb.
  destruct (match header _ "X-Idempotency-Key" with Some k => Some k | None => _ end)
    as [[|a k]|]; cbv beta iota; try (intros [= _ <-]; discriminate).
  destruct (createOrder (make_order orderId orderTs (String a k) r) w)
    as [w1 [e|[[|] it]]] eqn:E; cbv beta iota; try (intros [= _ <-]; discriminate).
  destruct (is_up ORDER_QUEUE w1); cbv beta iota; [|intros [= _ <-]; discriminate].
  intros [= <- _] _. exists (String a k).
  apply createOrder_created_stores in E as [_ E]. exact E.
Qed.



(** C8: every order the create handler answers 201 for is stored with
    subtotal the sum of quantity x unit_price over the items (in binary64, from
    0, in item order), tax = subtotal x 0.08 and total = subtotal + tax; each
    item's total_price is quantity x unit_price.  On the spec's scenario
    (2 x 25.00 + 6 x 8.00) the stored subtotal, tax and total are within 1e-2
    of 98.00, 7.84 and 105.84. *)
Theorem create_order_totals (orderId orderTs : string) (ev : ApiEvent)
    (r : CreateOrderRequest) (w w' : World) (resp : Response) :
  ev_body ev = Some r ->
  create_order_handler orderId orderTs ev w = (w', inr resp) ->
  statusCode resp = 201%Z ->
  (exists it, orders w' !! (rq_customer_id r, orderTs ++ "#" ++ orderId) = Some it /\
    let st := fold_left (fun sum i => (sum + js_num (ci_quantity i) * ci_unit_price i)%float)
                (rq_items r) 0%float in
    it !! "subtotal" = Some (AF st) /\
    it !! "tax" = Some (AF (st * 0.08)%float) /\
    it !! "total" = Some (AF (st + st * 0.08)%float) /\
    it !! "items" = Some (AL (map (fun i => AM [("sku", AS (ci_sku i)); ("name", AS (ci_name i));
                                        ("quantity", AN (ci_quantity i));
                                        ("unit_price", AF (ci_unit_price i));
                                        ("total_price", AF (js_num (ci_quantity i) * ci_unit_price i)%float)])
                               (rq_items r)))) /\
  scenario_totals_ok = true.
Proof.
  intros Hb H Hc. split; [|vm_compute; reflexivity].
  destruct (create_order_handler_201_stores orderId orderTs ev r w w' resp Hb H Hc) as [key Hk].
  eexists; split; [exact Hk|].
  repeat split; try reflexivity.
  cbn -[js_num]. f_equal. f_equal. rewrite map_map. reflexivity.
Qed.

Lemma create_order_totals_witness :
  ev_body scenario_event = Some scenario_request /\
  (exists it, orders (fst (create_order_handler "ORD-SCENARIO" scenario_ts scenario_event empty_world))
                !! ("CUST-001", scenario_ts ++ "#" ++ "ORD-SCENARIO") = Some it).
Proof.
  split; [reflexivity|].
  destruct (create_order_totals "ORD-SCENARIO" scenario_ts scenario_event scenario_request
              empty_world
              (fst (create_order_handler "ORD-SCENARIO" scenario_ts scenario_event empty_world))
              {| statusCode := 201; body := json_obj
                   (let o := order_item (make_order "ORD-SCENARIO" scenario_ts "retry-key-0001" scenario_request) in
                    [("order_id", o !! "order_id"); ("customer_id", o !! "customer_id");
                     ("status", o !! "status"); ("payment_state", o !! "payment_state");
                     ("items", o !! "items"); ("subtotal", o !! "subtotal");
                     ("tax", o !! "tax"); ("total", o !! "total");
                     ("created_at", o !! "created_at")] ++ []) |})
    as [[it [Hit _]] _]; [reflexivity|vm_compute; reflexivity|reflexivity|].
  exists it. exact Hit.
Defined.

(** C1: two POST /orders with the same [X-Idempotency-Key] and the same body.
    The handler derives the order key from a fresh ULID and the current time,
    not from the idempotency key, so the retry does not collide with the first
    request: both answers are 201, two orders are stored and two work items
    are enqueued. *)
Theorem create_order_same_idempotency_key_twice :
  let '(w1, r1) := create_order_handler "ORD-01J0000000000000000000000A"
                     "2026-01-01T00:00:00.000Z" scenario_event empty_world in
  let '(w2, r2) := create_order_handler "ORD-01J0000000000000000000000B"
                     "2026-01-01T00:00:00.150Z" scenario_event w1 in
  resp_code r1 = 201%Z /\ resp_code r2 = 201%Z /\
  map_size (orders w2) = 2 /\ length (outbox w2) = 2.
Proof. vm_compute. repeat split. Qed.

Lemma createOrder_projection_down (o : Order) (w : World) :
  is_up ORDERS w = true -> is_up ORDERS_BY_ID w = false ->
  orders w !! (customer_id o, order_ts_id o) = None ->
  createOrder o w =
    (set_orders (<[(customer_id o, order_ts_id o) := order_item o]> (orders w)) w,
     inl (ServiceUnavailable ORDERS_BY_ID)).
Proof.
  intros U1 U2 Hf.
  unfold createOrder, try_catch, bind, ret. rewrite ddb_put_spec, U1, Hf.
  cbv beta iota delta [attribute_not_exists]. rewrite ddb_put_spec.
  change (is_up ORDERS_BY_ID (set_orders _ w)) with (is_up ORDERS_BY_ID w).
  rewrite U2. reflexivity.
Qed.

(** C7 (as the code does it): when the guarded write of the primary record
    succeeds and the write of the by-ID projection fails, [createOrder] raises
    that failure; the create handler answers 500, the primary record stays
    stored, the projection is not written and no work item is enqueued. *)
Theorem create_order_projection_failure (orderId orderTs key : string) (ev : ApiEvent)
    (r : CreateOrderRequest) (w : World) :
  header (ev_headers ev) "X-Idempotency-Key" = Some key -> key <> "" ->
  ev_body ev = Some r ->
  is_up ORDERS w = true -> is_up ORDERS_BY_ID w = false ->
  orders w !! (rq_customer_id r, orderTs ++ "#" ++ orderId) = None ->
  let w' := set_orders (<[(rq_customer_id r, orderTs ++ "#" ++ orderId) :=
                           order_item (make_order orderId orderTs key r)]> (orders w)) w in
  createOrder (make_order orderId orderTs key r) w = (w', inl (ServiceUnavailable ORDERS_BY_ID)) /\
  create_order_handler orderId orderTs ev w = (w', inr (err_response 500 "Internal server error")) /\
  orders_by_id w' = orders_by_id w /\ outbox w' = outbox w.
Proof.
  intros Hh Hk Hb U1 U2 Hf w'.
  assert (E : createOrder (make_order orderId orderTs key r) w =
              (w', inl (ServiceUnavailable ORDERS_BY_ID)))
    by (apply createOrder_projection_down; assumption).
  split; [exact E|]. split; [|split; reflexivity].
  run_h. rewrite Hh, Hb. destruct key as [|a k]; [congruence|].
  cbv beta iota. rewrite E. reflexivity.
Qed.

Lemma create_order_projection_failure_witness :
  let w := {| orders := ∅; orders_by_id := ∅; inventory := ∅; outbox := [];
              unavailable := [ORDERS_BY_ID] |} in
  create_order_handler "ORD-X" scenario_ts scenario_event w =
    (set_orders (<[("CUST-001", scenario_ts ++ "#" ++ "ORD-X") :=
                   order_item (make_order "ORD-X" scenario_ts "retry-key-0001" scenario_request)]> ∅) w,
     inr (err_response 500 "Internal server error")).
Proof.
  intros w.
  destruct (create_order_projection_failure "ORD-X" scenario_ts "retry-key-0001" scenario_event
              scenario_request w) as [_ [H _]];
    [reflexivity|discriminate|reflexivity|reflexivity|reflexivity|reflexivity|].
  exact H.
Defined.

Lemma ddb_eq_AS_false (a : option attr) (s : string) :
  a <> Some (AS s) -> ddb_eq a (AS s) = false.
Proof.
  intros Hne. destruct a as [[x| | | | |]|]; try reflexivity.
  cbn. apply String.eqb_neq. congruence.
Qed.

(** C3: when [expectedCurrentStatus] is supplied and the primary record's
    status differs from it (or there is no record at the key),
    [updateOrderStatus] writes neither table, raises nothing and returns
    [false]. *)
Theorem updateOrderStatus_stale (cid tsid oid : string) (newStatus expected : OrderStatus)
    (now : string) (w : World) :
  is_up ORDERS w = true ->
  (forall it, orders w !! (cid, tsid) = Some it -> it !! "status" <> Some (AS (status_str expected))) ->
  updateOrderStatus cid tsid oid newStatus (Some expected) now w = (w, inr false).
Proof.
  intros U Hst.
  unfold updateOrderStatus, try_catch, bind, ret. rewrite ddb_update_spec, U.
  unfold status_is.
  destruct (orders w !! (cid, tsid)) as [it|] eqn:E; [|reflexivity].
  rewrite ddb_eq_AS_false by (apply Hst; reflexivity). reflexivity.
Qed.


Lemma updateOrderStatus_stale_witness :
  updateOrderStatus "CUST-001" "T#ORD-1" "ORD-1" CONFIRMED (Some PENDING) "now" stale_world
  = (stale_world, inr false).
Proof.
  apply updateOrderStatus_stale; [reflexivity|].
  intros it Hit. vm_compute in Hit. injection Hit as <-. vm_compute. congruence.
Defined.

Lemma create_order_projection_failure_counterexample :
  resp_code (snd (create_order_handler "ORD-X" scenario_ts scenario_event
     {| orders := ∅; orders_by_id := ∅; inventory := ∅; outbox := [];
        unavailable := [ORDERS_BY_ID] |})) = 500%Z.
Proof. vm_compute. reflexivity. Qed.



Lemma cancel_check_spec (orderId : string) (w : World) :
  is_up ORDERS_BY_ID w = true ->
  cancel_check orderId w =
    (w, inr (match orders_by_id w !! orderId with
             | None => inl (not_found_response orderId)
             | Some o => match cancellable (o !! "status") with
                         | None => inl (not_cancellable_response orderId o)
                         | Some _ => inr o
                         end
             end)).
Proof.
  intros U. unfold cancel_check, bind, getOrderById. rewrite ddb_get_spec, U.
  destruct (orders_by_id w !! orderId) as [o|]; [|reflexivity].
  destruct (cancellable _); reflexivity.
Qed.


Lemma updateOrderStatus_guard_holds (cid tsid oid : string) (ns e : OrderStatus)
    (now : string) (w : World) (it : Item) :
  is_up ORDERS w = true -> is_up ORDERS_BY_ID w = true ->
  orders w !! (cid, tsid) = Some it -> it !! "status" = Some (AS (status_str e)) ->
  updateOrderStatus cid tsid oid ns (Some e) now w =
    (set_orders_by_id
       (<[oid := set_status_item ns now (default (by_id_key_attrs oid) (orders_by_id w !! oid))]>
          (orders_by_id w))
       (set_orders (<[(cid, tsid) := set_status_item ns now it]> (orders w)) w),
     inr true).
Proof.
  intros U1 U2 Hit Hst.
  unfold updateOrderStatus, try_catch, bind, ret. rewrite ddb_update_spec, U1, Hit.
  cbv beta iota delta [status_is]. rewrite Hst. cbn [ddb_eq]. rewrite String.eqb_refl.
  cbv beta iota. rewrite ddb_update_spec.
  change (is_up ORDERS_BY_ID (set_orders _ w)) with (is_up ORDERS_BY_ID w). rewrite U2.
  reflexivity.
Qed.

Lemma cancellable_some (o : option attr) (s : OrderStatus) :
  cancellable o = Some s -> o = Some (AS (status_str s)) /\ (s = PENDING \/ s = CONFIRMED).
Proof.
  unfold cancellable. destruct o as [[x| | | | |]|]; try discriminate.
  destruct (String.eqb_spec x (status_str PENDING)) as [->|_]; [intros [= <-]; auto|].
  destruct (String.eqb_spec x (status_str CONFIRMED)) as [->|_]; [intros [= <-]; auto|].
  discriminate.
Qed.

Lemma cancellable_status (s : OrderStatus) :
  cancellable (Some (AS (status_str s))) =
    match s with PENDING => Some PENDING | CONFIRMED => Some CONFIRMED | _ => None end.
Proof. destruct s; reflexivity. Qed.

(** C4: outcomes of [DELETE /orders/{orderId}], for a non-empty [orderId]
    while the tables are reachable.  Absent projection: 404.  A status
    outside PENDING/CONFIRMED: 409 echoing that status.  PENDING or CONFIRMED
    with the primary record at the same status: 200, both records CANCELLED.
    A 200 only ever comes from a projection whose status is PENDING or
    CONFIRMED.  A status change of the primary record between the read and
    the guarded write (any concurrent step [w] to [w2]): 409, no write.  In
    the rejecting cases nothing is written. *)
Theorem cancel_order_outcomes (orderId now : string) (w : World) :
  orderId <> "" -> is_up ORDERS_BY_ID w = true ->
  (orders_by_id w !! orderId = None ->
     cancel_order_handler now (cancel_event orderId) w = (w, inr (not_found_response orderId))) /\
  (forall o s, orders_by_id w !! orderId = Some o -> o !! "status" = Some (AS (status_str s)) ->
     s <> PENDING -> s <> CONFIRMED ->
     cancel_order_handler now (cancel_event orderId) w = (w, inr (not_cancellable_response orderId o)) /\
     In ("current_status", AS (status_str s)) (body (not_cancellable_response orderId o)) /\
     statusCode (not_cancellable_response orderId o) = 409%Z) /\
  (forall o s it, orders_by_id w !! orderId = Some o -> o !! "status" = Some (AS (status_str s)) ->
     (s = PENDING \/ s = CONFIRMED) -> is_up ORDERS w = true ->
     orders w !! primary_key_of o = Some it -> it !! "status" = Some (AS (status_str s)) ->
     let '(w', r) := cancel_order_handler now (cancel_event orderId) w in
     resp_code r = 200%Z /\
     (orders w' !! primary_key_of o ≫= lookup "status") = Some (AS "CANCELLED") /\
     (orders_by_id w' !! orderId ≫= lookup "status") = Some (AS "CANCELLED")) /\
  (forall w' r, cancel_order_handler now (cancel_event orderId) w = (w', inr r) ->
     statusCode r = 200%Z ->
     exists o, orders_by_id w !! orderId = Some o /\
       (o !! "status" = Some (AS "PENDING") \/ o !! "status" = Some (AS "CONFIRMED"))) /\
  (forall o w2, cancel_check orderId w = (w, inr (inr o)) -> is_up ORDERS w2 = true ->
     (forall it, orders w2 !! primary_key_of o = Some it -> it !! "status" <> o !! "status") ->
     cancel_commit orderId o now w2 =
       (w2, inr {| statusCode := 409;
                   body := [("error", AS "Order status changed, please retry");
                            ("order_id", AS orderId)] |})).
Proof.
  intros Hid U2.
  assert (Hh : cancel_order_handler now (cancel_event orderId) w =
               try_catch (checked <- cancel_check orderId ;;
                          match checked with inl resp => ret resp | inr o => cancel_commit orderId o now end)
                         (fun _ => ret (err_response 500 "Internal server error")) w)
    by (destruct orderId; [congruence|reflexivity]).
  rewrite Hh. cbv beta delta [try_catch bind]. rewrite cancel_check_spec by exact U2.
  split; [|split; [|split; [|split]]].
  - intros E. rewrite E. reflexivity.
  - intros o s E Hs Hp Hc. rewrite E, Hs, cancellable_status.
    split; [destruct s; try congruence; reflexivity|].
    split; [|reflexivity]. cbn. rewrite Hs. cbn. auto.
  - intros o s it E Hs Hpc U1 Hit Hst. rewrite E, Hs, cancellable_status.
    assert (Hc : match s with PENDING => Some PENDING | CONFIRMED => Some CONFIRMED | _ => None end = Some s)
      by (destruct Hpc as [->| ->]; reflexivity).
    rewrite Hc. cbv beta iota. unfold cancel_commit, bind at 1.
    rewrite Hs, cancellable_status, Hc.
    destruct (primary_key_of o) as [cid tsid] eqn:Hk. cbn [fst snd].
    rewrite (updateOrderStatus_guard_holds cid tsid orderId CANCELLED s now w it U1 U2 Hit Hst).
    cbn [ret resp_code statusCode orders orders_by_id set_orders set_orders_by_id].
    rewrite !lookup_insert_eq. cbn. split; [reflexivity|].
    unfold set_status_item. rewrite lookup_insert_ne by discriminate.
    rewrite lookup_insert_eq. split; [reflexivity|].
    rewrite lookup_insert_ne by discriminate. rewrite lookup_insert_eq. reflexivity.
  - intros w' r.
    destruct (orders_by_id w !! orderId) as [o|]; [|intros [= _ <-]; discriminate].
    destruct (cancellable (o !! "status")) as [s|] eqn:Ec; [|intros [= _ <-]; discriminate].
    intros _ _. exists o. split; [reflexivity|].
    apply cancellable_some in Ec as [-> [-> | ->]]; auto.
  - intros o w2 Hchk U1 Hne. unfold cancel_commit, bind.
    unfold updateOrderStatus, try_catch, bind, ret. rewrite ddb_update_spec, U1.
    destruct (orders_by_id w !! orderId) as [o'|]; [|discriminate].
    destruct (cancellable (o' !! "status")) as [s|] eqn:Ec; [|discriminate].
    injection Hchk as Heq. subst o.
    pose proof (cancellable_some _ _ Ec) as [Hs _].
    rewrite Ec. unfold status_is.
    rewrite <- !surjective_pairing.
    destruct (orders w2 !! primary_key_of o') as [it|] eqn:Eit; [|reflexivity].
    rewrite ddb_eq_AS_false; [reflexivity|].
    rewrite <- Hs. apply Hne. reflexivity.
Qed.

Lemma cancel_order_outcomes_witness :
  cancel_order_handler "now" (cancel_event "ORD-1") stale_world =
    (stale_world, inr (not_cancellable_response "ORD-1"
                         (list_to_map [("order_id", AS "ORD-1"); ("status", AS "CANCELLED")]))).
Proof.
  destruct (cancel_order_outcomes "ORD-1" "now" stale_world) as [_ [H2 _]];
    [discriminate|reflexivity|].
  apply (H2 _ CANCELLED); [reflexivity|reflexivity|discriminate|discriminate].
Defined.


Lemma check_item_spec (store_id : string) (i : OrderItem) (w : World) :
  is_up INVENTORY w = true ->
  check_item store_id i w =
    (w, inr {| ac_sku := sku i; ac_store_sku := store_sku_of store_id (sku i);
               ac_requested := quantity i;
               ac_available := item_available w store_id i;
               ac_sufficient := Z.leb (quantity i) (item_available w store_id i) |}).
Proof.
  intros U. unfold check_item. cbv beta zeta delta [bind ret]. rewrite ddb_get_spec, U.
  reflexivity.
Qed.

Lemma mapM_check_item (store_id : string) (its : list OrderItem) (w : World) :
  is_up INVENTORY w = true ->
  mapM (check_item store_id) its w =
    (w, inr (map (fun i => {| ac_sku := sku i; ac_store_sku := store_sku_of store_id (sku i);
                             ac_requested := quantity i;
                             ac_available := item_available w store_id i;
                             ac_sufficient := Z.leb (quantity i) (item_available w store_id i) |})
                 its)).
Proof.
  intros U. induction its as [|i its IH]; [reflexivity|].
  cbn [mapM]. cbv beta delta [bind ret]. rewrite check_item_spec by exact U.
  cbv beta iota. rewrite IH. reflexivity.
Qed.

Lemma filter_map_comm {A B} (f : B -> bool) (g : A -> B) (l : list A) :
  List.filter f (map g l) = map g (List.filter (fun x => f (g x)) l).
Proof.
  induction l as [|x l IH]; [reflexivity|]. cbn. destruct (f (g x)); cbn; now rewrite IH.
Qed.

(** When some item is short, the reservation handler answers with the list
    of every short item and writes nothing. *)
Lemma reserve_insufficient_spec (reservationId now : string) (ev : ReserveInventoryRequest)
    (w : World) :
  is_up INVENTORY w = true ->
  (exists i, In i (rr_items ev) /\ (item_available w (rr_store_id ev) i < quantity i)%Z) ->
  reserve_inventory_handler reservationId now ev w =
    (w, inr {| success := false; reservation_id := None;
               failed_items := Some (map (fun i => (sku i, quantity i, item_available w (rr_store_id ev) i))
                                         (List.filter (fun i => negb (Z.leb (quantity i)
                                                              (item_available w (rr_store_id ev) i)))
                                                      (rr_items ev)));
               error := Some "Insufficient inventory" |}).
Proof.
  intros U [i [Hin Hlt]].
  unfold reserve_inventory_handler. cbv beta delta [try_catch bind].
  rewrite mapM_check_item by exact U. cbv beta iota zeta.
  rewrite filter_map_comm, length_map. cbn [ac_sufficient].
  set (p := fun i0 => negb (quantity i0 <=? item_available w (rr_store_id ev) i0)%Z).
  assert (Hi : In i (List.filter p (rr_items ev))).
  { apply filter_In. split; [exact Hin|]. unfold p. apply negb_true_iff, Z.leb_gt. exact Hlt. }
  destruct (List.filter p (rr_items ev)) as [|j l] eqn:Ef; [destruct Hi|].
  cbn [length Nat.ltb Nat.leb]. cbv beta iota delta [ret].
  rewrite map_map. reflexivity.
Qed.




(** C2: when at least one requested item has fewer units available
    ([quantity_available - quantity_reserved]) than requested, Reserve leaves
    the whole world unchanged (no [quantity_reserved] of any item moves),
    answers [success = false], and its [failed_items] lists exactly the short
    items in request order, each with its requested and available quantity. *)
Theorem reserve_all_or_nothing (reservationId now : string) (ev : ReserveInventoryRequest)
    (w : World) :
  is_up INVENTORY w = true ->
  (exists i, In i (rr_items ev) /\ (item_available w (rr_store_id ev) i < quantity i)%Z) ->
  let '(w', r) := reserve_inventory_handler reservationId now ev w in
  w' = w /\
  (forall i, In i (rr_items ev) ->
     inventory w' !! store_sku_of (rr_store_id ev) (sku i)
     = inventory w !! store_sku_of (rr_store_id ev) (sku i)) /\
  r = inr {| success := false; reservation_id := None;
             failed_items := Some (map (fun i => (sku i, quantity i, item_available w (rr_store_id ev) i))
                                       (List.filter (fun i => (item_available w (rr_store_id ev) i
                                                               <? quantity i)%Z)
                                                    (rr_items ev)));
             error := Some "Insufficient inventory" |}.
Proof.
  intros U Hshort. rewrite (reserve_insufficient_spec reservationId now ev w U Hshort).
  split; [reflexivity|]. split; [reflexivity|].
  do 4 f_equal. apply filter_ext. intros i.
  rewrite Z.ltb_antisym. reflexivity.
Qed.

Lemma reserve_all_or_nothing_witness :
  is_up INVENTORY reserve_world = true /\
  (exists i, In i (rr_items (reserve_request [reserve_line "WINE-001" 10; reserve_line "BEER-001" 1]))
             /\ (item_available reserve_world "S1" i < quantity i)%Z) /\
  let '(w', r) := reserve_inventory_handler "RES-1" "now"
                    (reserve_request [reserve_line "WINE-001" 10; reserve_line "BEER-001" 1])
                    reserve_world in
  w' = reserve_world /\
  (forall i, In i [reserve_line "WINE-001" 10; reserve_line "BEER-001" 1] ->
     inventory w' !! store_sku_of "S1" (sku i) = inventory reserve_world !! store_sku_of "S1" (sku i)) /\
  r = inr {| success := false; reservation_id := None;
             failed_items := Some (map (fun i => (sku i, quantity i, item_available reserve_world "S1" i))
                                       (List.filter (fun i => (item_available reserve_world "S1" i
                                                               <? quantity i)%Z)
                                                    [reserve_line "WINE-001" 10; reserve_line "BEER-001" 1]));
             error := Some "Insufficient inventory" |}.
Proof.
  assert (U : is_up INVENTORY reserve_world = true) by reflexivity.
  assert (E : exists i, In i (rr_items (reserve_request [reserve_line "WINE-001" 10; reserve_line "BEER-001" 1]))
             /\ (item_available reserve_world "S1" i < quantity i)%Z).
  { exists (reserve_line "WINE-001" 10). split; [left; reflexivity|]. vm_compute. reflexivity. }
  split; [exact U|]. split; [exact E|].
  exact (reserve_all_or_nothing "RES-1" "now"
           (reserve_request [reserve_line "WINE-001" 10; reserve_line "BEER-001" 1]) reserve_world U E).
Defined.

(** C9: an item whose [store_id#sku] key has no inventory record counts as
    0 available; with a positive requested quantity Reserve does not raise,
    answers [success = false] with that item reported as
    [(sku, requested, 0)], and creates no inventory record (the world,
    hence that key, is unchanged). *)
Theorem reserve_unknown_sku (reservationId now : string) (ev : ReserveInventoryRequest)
    (w : World) (i : OrderItem) :
  is_up INVENTORY w = true ->
  In i (rr_items ev) ->
  inventory w !! store_sku_of (rr_store_id ev) (sku i) = None ->
  (0 < quantity i)%Z ->
  exists r,
    reserve_inventory_handler reservationId now ev w = (w, inr r) /\
    success r = false /\
    error r = Some "Insufficient inventory" /\
    (exists l, failed_items r = Some l /\ In (sku i, quantity i, 0%Z) l).
Proof.
  intros U Hin Hnone Hpos.
  assert (Ha : item_available w (rr_store_id ev) i = 0%Z).
  { unfold item_available. rewrite Hnone. reflexivity. }
  rewrite (reserve_insufficient_spec reservationId now ev w U)
    by (exists i; split; [exact Hin | lia]).
  eexists. split; [reflexivity|]. split; [reflexivity|]. split; [reflexivity|].
  eexists. split; [reflexivity|].
  rewrite <- Ha. apply (in_map (fun j => (sku j, quantity j, item_available w (rr_store_id ev) j))).
  apply filter_In. split; [exact Hin|]. rewrite Ha. apply negb_true_iff, Z.leb_gt. exact Hpos.
Qed.

Lemma reserve_unknown_sku_witness :
  exists r,
    reserve_inventory_handler "RES-1" "now"
      (reserve_request [reserve_line "BEER-001" 1; reserve_line "RUM-404" 2]) reserve_world
    = (reserve_world, inr r) /\
    success r = false /\
    error r = Some "Insufficient inventory" /\
    (exists l, failed_items r = Some l /\ In ("RUM-404", 2%Z, 0%Z) l).
Proof.
  apply (reserve_unknown_sku "RES-1" "now"
           (reserve_request [reserve_line "BEER-001" 1; reserve_line "RUM-404" 2])
           reserve_world (reserve_line "RUM-404" 2)).
  - reflexivity.
  - right; left; reflexivity.
  - vm_compute. reflexivity.
  - vm_compute. reflexivity.
Defined.

(** The event types [transformToDomainEvents] emits for a [MODIFY] record
    with both images, from the two [===] tests on [status] and
    [payment_state]. *)
Lemma transform_modify_types (timestamp : string) (record : DynamoDBRecord) (d : StreamRecord)
    (n o : Item) :
  eventName record = Some "MODIFY" ->
  dynamodb record = Some d -> NewImage d = Some n -> OldImage d = Some o ->
  map DetailType (transformToDomainEvents timestamp record) =
    ((if negb (js_strict_eq (n !! "status") (o !! "status")) then
       ["Order Status Changed"]
       ++ (if js_strict_eq (n !! "status") (Some (AS "CONFIRMED")) then ["Order Confirmed"] else [])
       ++ (if js_strict_eq (n !! "status") (Some (AS "CANCELLED")) then ["Order Cancelled"] else [])
       ++ (if js_strict_eq (n !! "status") (Some (AS "SHIPPED")) then ["Order Shipped"] else [])
     else [])
    ++ (if negb (js_strict_eq (n !! "payment_state") (o !! "payment_state"))
        then ["Payment State Changed"] else []))%list.
Proof.
  intros HE Hd HN HO. unfold transformToDomainEvents. rewrite Hd, HE, HN, HO.
  rewrite bool_decide_false by discriminate. rewrite bool_decide_true by reflexivity.
  cbv zeta. cbn [status_str].
  destruct (negb (js_strict_eq (n !! "status") (o !! "status"))),
    (js_strict_eq (n !! "status") (Some (AS "CONFIRMED"))),
    (js_strict_eq (n !! "status") (Some (AS "CANCELLED"))),
    (js_strict_eq (n !! "status") (Some (AS "SHIPPED"))),
    (negb (js_strict_eq (n !! "payment_state") (o !! "payment_state"))); reflexivity.
Qed.

(** C5: for a [MODIFY] record with both images whose [status] and
    [payment_state] are strings and whose payment states differ: if the
    statuses are equal, the only event is ["Payment State Changed"]; if they
    differ, the events are ["Order Status Changed"], then ["Order Confirmed"],
    ["Order Cancelled"] or ["Order Shipped"] when the new status is
    CONFIRMED, CANCELLED or SHIPPED (none otherwise), then
    ["Payment State Changed"]. *)
Theorem transform_modify_payment_events (timestamp : string) (record : DynamoDBRecord)
    (d : StreamRecord) (n o : Item) (s_new s_old p_new p_old : string) :
  eventName record = Some "MODIFY" ->
  dynamodb record = Some d -> NewImage d = Some n -> OldImage d = Some o ->
  n !! "status" = Some (AS s_new) -> o !! "status" = Some (AS s_old) ->
  n !! "payment_state" = Some (AS p_new) -> o !! "payment_state" = Some (AS p_old) ->
  p_new <> p_old ->
  let types := map DetailType (transformToDomainEvents timestamp record) in
  (s_new = s_old -> types = ["Payment State Changed"]) /\
  (s_new <> s_old ->
     (s_new = "CONFIRMED" -> types = ["Order Status Changed"; "Order Confirmed"; "Payment State Changed"]) /\
     (s_new = "CANCELLED" -> types = ["Order Status Changed"; "Order Cancelled"; "Payment State Changed"]) /\
     (s_new = "SHIPPED" -> types = ["Order Status Changed"; "Order Shipped"; "Payment State Changed"]) /\
     (~ In s_new ["CONFIRMED"; "CANCELLED"; "SHIPPED"] ->
        types = ["Order Status Changed"; "Payment State Changed"])).
Proof.
  intros HE Hd HN HO Hsn Hso Hpn Hpo Hp types. unfold types.
  rewrite (transform_modify_types timestamp record d n o HE Hd HN HO).
  rewrite Hsn, Hso, Hpn, Hpo. cbn [js_strict_eq].
  assert (Ep : String.eqb p_new p_old = false) by (apply String.eqb_neq; exact Hp).
  rewrite Ep. split.
  - intros <-. rewrite String.eqb_refl. reflexivity.
  - intros Hs. apply String.eqb_neq in Hs. rewrite Hs. cbn [negb].
    split; [intros ->; reflexivity|]. split; [intros ->; reflexivity|].
    split; [intros ->; reflexivity|].
    intros Hnot.
    assert (E1 : String.eqb s_new "CONFIRMED" = false)
      by (apply String.eqb_neq; intros ->; apply Hnot; left; reflexivity).
    assert (E2 : String.eqb s_new "CANCELLED" = false)
      by (apply String.eqb_neq; intros ->; apply Hnot; right; left; reflexivity).
    assert (E3 : String.eqb s_new "SHIPPED" = false)
      by (apply String.eqb_neq; intros ->; apply Hnot; right; right; left; reflexivity).
    rewrite E1, E2, E3. reflexivity.
Qed.

Lemma transform_modify_payment_events_witness :
  let types := map DetailType (transformToDomainEvents "T"
                 (modify_record (image "CONFIRMED" "CAPTURED") (image "PENDING" "PENDING"))) in
  ("CONFIRMED" = "PENDING" -> types = ["Payment State Changed"]) /\
  ("CONFIRMED" <> "PENDING" ->
     ("CONFIRMED" = "CONFIRMED" -> types = ["Order Status Changed"; "Order Confirmed"; "Payment State Changed"]) /\
     ("CONFIRMED" = "CANCELLED" -> types = ["Order Status Changed"; "Order Cancelled"; "Payment State Changed"]) /\
     ("CONFIRMED" = "SHIPPED" -> types = ["Order Status Changed"; "Order Shipped"; "Payment State Changed"]) /\
     (~ In "CONFIRMED" ["CONFIRMED"; "CANCELLED"; "SHIPPED"] ->
        types = ["Order Status Changed"; "Payment State Changed"])).
Proof.
  apply (transform_modify_payment_events "T"
           (modify_record (image "CONFIRMED" "CAPTURED") (image "PENDING" "PENDING"))
           {| NewImage := Some (image "CONFIRMED" "CAPTURED"); OldImage := Some (image "PENDING" "PENDING") |}
           (image "CONFIRMED" "CAPTURED") (image "PENDING" "PENDING")
           "CONFIRMED" "PENDING" "CAPTURED" "PENDING");
    try reflexivity; try (vm_compute; reflexivity).
  discriminate.
Defined.

Lemma js_strict_eq_not_str (a : option attr) (s : string) :
  a <> Some (AS s) -> js_strict_eq a (Some (AS s)) = false.
Proof.
  intros Hne. destruct a as [[x| | | | |]|]; try reflexivity.
  cbn. apply String.eqb_neq. intros ->. apply Hne. reflexivity.
Qed.

(** C6: a work item whose order, re-read from the by-ID projection, has a
    status other than PENDING is acknowledged: [process_record] leaves the
    world unchanged (no table write, no Lambda invocation recorded in the
    outbox) and does not report the item, so the batch answer and the final
    world are those of the remaining records alone. *)
Theorem saga_skips_non_pending
    (lambda_response : string -> list (string * attr) -> bool -> InvokeResponse)
    (now : string) (record : SQSRecord) (rest : list SQSRecord)
    (message : OrderProcessingMessage) (o : Item) (w : World) :
  body_msg record = Some message ->
  is_up ORDERS_BY_ID w = true ->
  orders_by_id w !! msg_order_id message = Some o ->
  o !! "status" <> Some (AS "PENDING") ->
  process_record lambda_response now record w = (w, inr false) /\
  saga_handler lambda_response now (record :: rest) w = saga_handler lambda_response now rest w.
Proof.
  intros Hb U Ho Hs.
  assert (P : process_record lambda_response now record w = (w, inr false)).
  { unfold process_record. cbv beta delta [try_catch bind]. rewrite Hb.
    unfold getOrderById. rewrite ddb_get_spec, U, Ho. cbv beta iota.
    cbn [status_str]. rewrite (js_strict_eq_not_str _ _ Hs). reflexivity. }
  split; [exact P|].
  unfold saga_handler. cbn [process_records]. cbv beta delta [bind ret].
  rewrite P. cbv beta iota.
  destruct (process_records lambda_response now rest w) as [w' [e|fs]]; reflexivity.
Qed.

Lemma saga_skips_non_pending_witness :
  process_record lambda_ok "now" saga_record saga_world = (saga_world, inr false) /\
  saga_handler lambda_ok "now" [saga_record] saga_world = saga_handler lambda_ok "now" [] saga_world.
Proof.
  apply (saga_skips_non_pending lambda_ok "now" saga_record [] saga_message
           (image "CONFIRMED" "CAPTURED") saga_world).
  - reflexivity.
  - reflexivity.
  - vm_compute. reflexivity.
  - vm_compute. discriminate.
Defined.

(** The payment handler writes at most the by-ID projection of the order,
    and there only [payment_state] and [updated_at]. *)
Lemma process_payment_handler_spec (now : string) (random : float) (date_now rand36 : string)
    (ev : ProcessPaymentRequest) (w : World) :
  fst (process_payment_handler now random date_now rand36 ev w) =
    if is_up ORDERS_BY_ID w then
      set_orders_by_id
        (<[pp_order_id ev := <["updated_at" := AS now]>
            (<["payment_state" := AS (payment_str (if simulatePayment (pp_amount ev) random
                                                   then CAPTURED else PS_FAILED))]>
               (default (by_id_key_attrs (pp_order_id ev)) (orders_by_id w !! pp_order_id ev)))]>
           (orders_by_id w)) w
    else w.
Proof.
  unfold process_payment_handler. cbv beta zeta delta [try_catch bind].
  rewrite ddb_update_spec. unfold no_condition.
  destruct (is_up ORDERS_BY_ID w); [|reflexivity].
  cbv beta iota. destruct (simulatePayment (pp_amount ev) random); reflexivity.
Qed.

(** C10: after any run of the payment handler the primary [orders] table,
    the inventory and the outbox are unchanged (so every primary record keeps
    its [payment_state]); the by-ID projection is unchanged at every other
    order id, and at [order_id] it is either unchanged or the previous item
    (or, if absent, the key attributes) with only [payment_state] and
    [updated_at] set. *)
Theorem process_payment_frame (now : string) (random : float) (date_now rand36 : string)
    (ev : ProcessPaymentRequest) (w : World) :
  let w' := fst (process_payment_handler now random date_now rand36 ev w) in
  orders w' = orders w /\
  inventory w' = inventory w /\
  outbox w' = outbox w /\
  (forall k, k <> pp_order_id ev -> orders_by_id w' !! k = orders_by_id w !! k) /\
  (orders_by_id w' !! pp_order_id ev = orders_by_id w !! pp_order_id ev \/
   exists st : PaymentState,
     orders_by_id w' !! pp_order_id ev =
       Some (<["updated_at" := AS now]> (<["payment_state" := AS (payment_str st)]>
               (default (by_id_key_attrs (pp_order_id ev)) (orders_by_id w !! pp_order_id ev))))).
Proof.
  cbv zeta. rewrite process_payment_handler_spec.
  destruct (is_up ORDERS_BY_ID w).
  - cbn [orders inventory outbox orders_by_id set_orders_by_id].
    split; [reflexivity|]. split; [reflexivity|]. split; [reflexivity|]. split.
    + intros k Hk. rewrite lookup_insert_ne by congruence. reflexivity.
    + right. eexists. rewrite lookup_insert_eq. reflexivity.
  - split; [reflexivity|]. split; [reflexivity|]. split; [reflexivity|].
    split; [reflexivity|]. left; reflexivity.
Qed.

(** On [saga_world] with the primary record and the projection both at
    [payment_state = "PENDING"], a successful payment leaves the primary at
    ["PENDING"] and sets the projection to ["CAPTURED"]. *)
Example payment_divergence :
  let w0 := {| orders := {[ ("CUST-001", "T#ORD-1") := image "PENDING" "PENDING" ]};
               orders_by_id := {[ "ORD-1" := image "PENDING" "PENDING" ]};
               inventory := ∅; outbox := []; unavailable := [] |} in
  let w' := fst (process_payment_handler "now" 0.5 "1700000000000" "abc1234"
                   {| pp_order_id := "ORD-1"; pp_customer_id := "CUST-001"; pp_amount := 10 |} w0) in
  (orders w' !! ("CUST-001", "T#ORD-1")) ≫= (fun it => it !! "payment_state") = Some (AS "PENDING") /\
  (orders_by_id w' !! "ORD-1") ≫= (fun it => it !! "payment_state") = Some (AS "CAPTURED").
Proof. vm_compute. split; reflexivity. Qed.

(** ** Further properties of the create handler *)

Lemma createOrder_fresh (o : Order) (w : World) :
  is_up ORDERS w = true -> is_up ORDERS_BY_ID w = true ->
  orders w !! (customer_id o, order_ts_id o) = None ->
  createOrder o w =
    (set_orders_by_id (<[order_id o := order_by_id_item o]> (orders_by_id w))
       (set_orders (<[(customer_id o, order_ts_id o) := order_item o]> (orders w)) w),
     inr (true, order_item o)).
Proof.
  intros U1 U2 Hf.
  unfold createOrder, try_catch, bind, ret. rewrite ddb_put_spec, U1, Hf.
  cbv beta iota delta [attribute_not_exists]. rewrite ddb_put_spec.
  change (is_up ORDERS_BY_ID (set_orders _ w)) with (is_up ORDERS_BY_ID w).
  rewrite U2. reflexivity.
Qed.

Lemma createOrder_existing (o : Order) (w : World) (it : Item) (v : attr) :
  is_up ORDERS w = true ->
  orders w !! (customer_id o, order_ts_id o) = Some it -> it !! "customer_id" = Some v ->
  createOrder o w = (w, inr (false, it)).
Proof.
  intros U1 Hit Hv.
  unfold createOrder, try_catch, bind, ret. rewrite ddb_put_spec, U1, Hit.
  cbv beta iota delta [attribute_not_exists]. rewrite Hv.
  unfold getOrderByCustomer. rewrite ddb_get_spec, U1, Hit. reflexivity.
Qed.

(** X1: when neither idempotency header gives a non-empty key, the create
    handler answers 400 ["Missing X-Idempotency-Key header"] and changes
    nothing. *)
Theorem create_order_missing_key (orderId orderTs : string) (ev : ApiEvent) (w : World) :
  idempotency_header ev = None \/ idempotency_header ev = Some "" ->
  create_order_handler orderId orderTs ev w =
    (w, inr (err_response 400 "Missing X-Idempotency-Key header")).
Proof.
  unfold idempotency_header. intros H. run_h.
  destruct H as [H|H]; rewrite H; reflexivity.
Qed.

(** X2: with a key but a body the schema rejects, the create handler answers
    400 and changes nothing. *)
Theorem create_order_invalid_body (orderId orderTs key : string) (ev : ApiEvent) (w : World) :
  idempotency_header ev = Some key -> key <> "" -> ev_body ev = None ->
  exists resp, create_order_handler orderId orderTs ev w = (w, inr resp) /\
               statusCode resp = 400%Z.
Proof.
  unfold idempotency_header. intros Hh Hk Hb. run_h. rewrite Hh.
  destruct key as [|a k]; [congruence|]. rewrite Hb.
  eexists. split; reflexivity.
Qed.

(** X3: with a key, a valid body, every service up and no order at the new
    key, the create handler answers 201 without a ["message"] field, stores
    the built order at its key and its projection at [orderId], leaves the
    inventory alone and enqueues exactly one PROCESS_ORDER message. *)
Theorem create_order_fresh_201 (orderId orderTs key : string) (ev : ApiEvent)
    (r : CreateOrderRequest) (w : World) :
  idempotency_header ev = Some key -> key <> "" -> ev_body ev = Some r ->
  is_up ORDERS w = true -> is_up ORDERS_BY_ID w = true -> is_up ORDER_QUEUE w = true ->
  orders w !! (rq_customer_id r, orderTs ++ "#" ++ orderId) = None ->
  let o := make_order orderId orderTs key r in
  exists w' resp,
    create_order_handler orderId orderTs ev w = (w', inr resp) /\
    statusCode resp = 201%Z /\
    ~ In "message" (map fst (body resp)) /\
    orders w' = <[(rq_customer_id r, orderTs ++ "#" ++ orderId) := order_item o]> (orders w) /\
    orders_by_id w' = <[orderId := order_by_id_item o]> (orders_by_id w) /\
    inventory w' = inventory w /\
    outbox w' = (outbox w ++ [SqsSend (process_order_message orderId orderTs (rq_customer_id r))])%list.
Proof.
  unfold idempotency_header. intros Hh Hk Hb U1 U2 U3 Hf. cbv zeta.
  assert (E := createOrder_fresh (make_order orderId orderTs key r) w U1 U2 Hf).
  run_h. rewrite Hh. destruct key as [|a k]; [congruence|]. rewrite Hb.
  rewrite E. cbv beta iota.
  change (is_up ORDER_QUEUE (set_orders_by_id _ (set_orders _ w))) with (is_up ORDER_QUEUE w).
  rewrite U3. do 2 eexists. split; [reflexivity|].
  split; [reflexivity|]. split.
  { vm_compute. intuition discriminate. }
  split; [reflexivity|]. split; [reflexivity|]. split; reflexivity.
Qed.

(** X4: when an order with a [customer_id] is already stored at the key the
    handler builds, the create handler writes and enqueues nothing and
    answers 200 with the stored order's fields and the message
    ["Order already exists (idempotent)"]. *)
Theorem create_order_existing_200 (orderId orderTs key : string) (ev : ApiEvent)
    (r : CreateOrderRequest) (w : World) (it : Item) (v : attr) :
  idempotency_header ev = Some key -> key <> "" -> ev_body ev = Some r ->
  is_up ORDERS w = true ->
  orders w !! (rq_customer_id r, orderTs ++ "#" ++ orderId) = Some it ->
  it !! "customer_id" = Some v ->
  create_order_handler orderId orderTs ev w =
    (w, inr {| statusCode := 200;
               body := json_obj
                 [("order_id", it !! "order_id"); ("customer_id", it !! "customer_id");
                  ("status", it !! "status"); ("payment_state", it !! "payment_state");
                  ("items", it !! "items"); ("subtotal", it !! "subtotal");
                  ("tax", it !! "tax"); ("total", it !! "total");
                  ("created_at", it !! "created_at");
                  ("message", Some (AS "Order already exists (idempotent)"))] |}).
Proof.
  unfold idempotency_header. intros Hh Hk Hb U1 Hit Hv.
  assert (E := createOrder_existing (make_order orderId orderTs key r) w it v U1 Hit Hv).
  run_h. rewrite Hh. destruct key as [|a k]; [congruence|]. rewrite Hb.
  rewrite E. reflexivity.
Qed.

(** X5: when both table writes succeed but the queue is unavailable, the
    create handler answers 500 although the order and its projection stay
    stored; no message is enqueued. *)
Theorem create_order_queue_down_500 (orderId orderTs key : string) (ev : ApiEvent)
    (r : CreateOrderRequest) (w : World) :
  idempotency_header ev = Some key -> key <> "" -> ev_body ev = Some r ->
  is_up ORDERS w = true -> is_up ORDERS_BY_ID w = true -> is_up ORDER_QUEUE w = false ->
  orders w !! (rq_customer_id r, orderTs ++ "#" ++ orderId) = None ->
  exists w',
    create_order_handler orderId orderTs ev w = (w', inr (err_response 500 "Internal server error")) /\
    orders w' !! (rq_customer_id r, orderTs ++ "#" ++ orderId) =
      Some (order_item (make_order orderId orderTs key r)) /\
    orders_by_id w' !! orderId = Some (order_by_id_item (make_order orderId orderTs key r)) /\
    outbox w' = outbox w.
Proof.
  unfold idempotency_header. intros Hh Hk Hb U1 U2 U3 Hf.
  assert (E := createOrder_fresh (make_order orderId orderTs key r) w U1 U2 Hf).
  run_h. rewrite Hh. destruct key as [|a k]; [congruence|]. rewrite Hb.
  rewrite E. cbv beta iota.
  change (is_up ORDER_QUEUE (set_orders_by_id _ (set_orders _ w))) with (is_up ORDER_QUEUE w).
  rewrite U3. eexists. split; [reflexivity|].
  cbn [orders orders_by_id outbox set_orders set_orders_by_id].
  split; [apply lookup_insert_eq|]. split; [apply lookup_insert_eq|reflexivity].
Qed.

(** ** Pagination of [listOrdersByCustomer] *)

Lemma fmap_is_map {A B} (f : A -> B) (l : list A) : f <$> l = map f l.
Proof. induction l as [|x l IH]; [reflexivity|]. cbn. rewrite <- IH. reflexivity. Qed.




Lemma string_le_neq_ltb (a b : string) : String.le a b -> a <> b -> String.ltb a b = true.
Proof.
  unfold String.le, String.leb, String.ltb. intros Hle Hne.
  destruct (a ?= b)%string eqn:E; [|reflexivity|].
  - apply String.compare_eq_iff in E. contradiction.
  - destruct Hle.
Qed.

Lemma StronglySorted_strict {A} (R R' : A -> A -> Prop) (f : A -> string) (l : list A) :
  (forall a b, R a b -> f a <> f b -> R' a b) ->
  StronglySorted R l -> List.NoDup (map f l) -> StronglySorted R' l.
Proof.
  intros HR Hs. induction Hs as [|x l Hs IH Hall]; intros Hnd; constructor.
  - apply IH. inversion Hnd; assumption.
  - inversion Hnd as [|? ? Hnin Hnd']; subst.
    apply List.Forall_forall. intros y Hy. apply HR.
    + rewrite List.Forall_forall in Hall. apply Hall, Hy.
    + intros Heq. apply Hnin. rewrite Heq. apply in_map, Hy.
Qed.

Lemma NoDup_partition_keys (L : list ((string * string) * Item)) (cid : string) :
  List.NoDup (map fst L) ->
  List.NoDup (map (fun kv => snd (fst kv)) (List.filter (fun kv => bool_decide (fst (fst kv) = cid)) L)).
Proof.
  induction L as [|kv L IH]; intros Hnd; cbn; [constructor|].
  inversion Hnd as [|? ? Hnin Hnd']; subst.
  destruct (bool_decide (fst (fst kv) = cid)) eqn:E; cbn; [|apply IH, Hnd'].
  constructor; [|apply IH, Hnd'].
  intros Hin. apply in_map_iff in Hin as [kv' [Hk Hin]].
  apply filter_In in Hin as [Hin E'].
  apply bool_decide_eq_true in E, E'.
  apply Hnin. apply in_map_iff. exists kv'. split; [|exact Hin].
  destruct kv as [[c s] x], kv' as [[c' s'] x']. cbn in *. congruence.
Qed.

Lemma customer_rows_perm (t : gmap (string * string) Item) (cid : string) :
  Permutation (customer_rows t cid)
    (map (fun kv => (snd (fst kv), snd kv))
         (List.filter (fun kv => bool_decide (fst (fst kv) = cid)) (map_to_list t))).
Proof. unfold customer_rows. apply merge_sort_Permutation. Qed.

Lemma customer_rows_In (t : gmap (string * string) Item) (cid sk : string) (it : Item) :
  In (sk, it) (customer_rows t cid) <-> t !! (cid, sk) = Some it.
Proof.
  pose proof (customer_rows_perm t cid) as HP.
  transitivity (In (sk, it) (map (fun kv => (snd (fst kv), snd kv))
         (List.filter (fun kv => bool_decide (fst (fst kv) = cid)) (map_to_list t)))).
  { split; intros H; [eapply Permutation_in; [exact HP|exact H]|eapply Permutation_in; [symmetry; exact HP|exact H]]. }
  rewrite in_map_iff. split.
  - intros [[[c s] x] [Heq Hin]]. cbn in Heq. injection Heq as <- <-.
    apply filter_In in Hin as [Hin E]. apply bool_decide_eq_true in E. cbn in E. subst c.
    apply elem_of_map_to_list. apply list_elem_of_In. exact Hin.
  - intros H. exists ((cid, sk), it). split; [reflexivity|].
    apply filter_In. split; [|apply bool_decide_eq_true; reflexivity].
    apply list_elem_of_In. apply elem_of_map_to_list. exact H.
Qed.

Instance newer_first_trans : Transitive newer_first.
Proof. intros a b c Hab Hbc. unfold newer_first in *. etransitivity; eassumption. Qed.

Instance newer_first_total : Total newer_first.
Proof. intros a b. unfold newer_first. destruct (String.le_total (fst a) (fst b)); auto. Qed.

Lemma customer_rows_sorted (t : gmap (string * string) Item) (cid : string) :
  StronglySorted strictly_newer (customer_rows t cid).
Proof.
  apply (StronglySorted_strict newer_first strictly_newer fst).
  - intros a b Hab Hne. unfold strictly_newer. apply string_le_neq_ltb; [exact Hab|congruence].
  - unfold customer_rows. apply StronglySorted_merge_sort; apply _.
  - eapply Permutation.Permutation_NoDup; [apply Permutation_map; symmetry; apply customer_rows_perm|].
    rewrite map_map. cbn. apply NoDup_partition_keys.
    pose proof (NoDup_fst_map_to_list t) as H. rewrite fmap_is_map in H.
    apply NoDup_ListNoDup. exact H.
Qed.






Lemma StronglySorted_filter {A} (R : A -> A -> Prop) (p : A -> bool) (l : list A) :
  StronglySorted R l -> StronglySorted R (List.filter p l).
Proof.
  induction 1 as [|x l Hs IH Hall]; cbn; [constructor|].
  destruct (p x); [|exact IH]. constructor; [exact IH|].
  rewrite List.Forall_forall in Hall |- *. intros y Hy. apply filter_In in Hy as [Hy _]. apply Hall, Hy.
Qed.

Lemma In_take {A} (x : A) (n : nat) (l : list A) : In x (take n l) -> In x l.
Proof. rewrite <- !list_elem_of_In. intros H. apply (subseteq_take n l), H. Qed.

Lemma StronglySorted_take {A} (R : A -> A -> Prop) (n : nat) (l : list A) :
  StronglySorted R l -> StronglySorted R (take n l).
Proof.
  intros Hs. revert n. induction Hs as [|x l Hs IH Hall]; intros [|n]; cbn; try constructor.
  - apply IH.
  - rewrite List.Forall_forall in Hall |- *. intros y Hy. apply Hall. eapply In_take, Hy.
Qed.

Lemma query_customer_inv cid n start w w' r :
  query_customer cid n start w = (w', inr r) ->
  w' = w /\ n <> 0 /\ is_up ORDERS w = true /\
  (forall c sk, start = Some (c, sk) -> c = cid) /\
  r = (map snd (take n (after_rows (orders w) cid start)),
       if Nat.leb n (length (after_rows (orders w) cid start))
       then option_map (fun r => (cid, fst r)) (last (take n (after_rows (orders w) cid start)))
       else None).
Proof.
  unfold query_customer, bind, require, gets, ret, raise.
  destruct (is_up ORDERS w) eqn:U; [|discriminate].
  destruct (Nat.eqb n 0) eqn:N; [discriminate|]. apply Nat.eqb_neq in N.
  destruct start as [[c sk]|].
  - destruct (String.eqb c cid) eqn:C; [|discriminate]. apply String.eqb_eq in C.
    intros H. injection H as <- <-. repeat split; auto. intros c' sk' [= <- <-]. exact C.
  - intros H. injection H as <- <-. repeat split; auto. discriminate.
Qed.

Lemma after_rows_sorted t cid start : StronglySorted strictly_newer (after_rows t cid start).
Proof.
  destruct start as [[c sk]|]; cbn; [apply StronglySorted_filter|]; apply customer_rows_sorted.
Qed.

Lemma after_rows_In t cid start sk it :
  In (sk, it) (after_rows t cid start) <->
  t !! (cid, sk) = Some it /\ match start with None => True | Some (_, s0) => String.ltb sk s0 = true end.
Proof.
  destruct start as [[c s0]|]; cbn.
  - rewrite filter_In, customer_rows_In. reflexivity.
  - rewrite customer_rows_In. tauto.
Qed.

(** X6: a page returned by [listOrdersByCustomer] changes nothing and
    lists orders of the asked customer only, each stored at its sort key,
    with strictly decreasing sort keys, all before the start key; when no
    token is returned the page holds every such order. *)
Theorem listOrdersByCustomer_page (customerId : string) (limit : nat) (nextToken : option (string * string))
    (w w' : World) (items : list Item) (token : option (string * string)) :
  listOrdersByCustomer customerId limit nextToken w = (w', inr (items, token)) ->
  w' = w /\
  exists rows : list (string * Item),
    items = map snd rows /\
    StronglySorted strictly_newer rows /\
    (forall sk it, In (sk, it) rows ->
       orders w !! (customerId, sk) = Some it /\
       match nextToken with None => True | Some (_, s0) => String.ltb sk s0 = true end) /\
    (token = None -> forall sk it, orders w !! (customerId, sk) = Some it ->
       match nextToken with None => True | Some (_, s0) => String.ltb sk s0 = true end ->
       In (sk, it) rows).
Proof.
  unfold listOrdersByCustomer. intros H.
  apply query_customer_inv in H as (-> & Hn & _ & _ & Hr). split; [reflexivity|].
  injection Hr as Hi Ht.
  exists (take limit (after_rows (orders w) customerId nextToken)). split; [exact Hi|]. split; [|split].
  - apply StronglySorted_take, after_rows_sorted.
  - intros sk it Hin. apply In_take in Hin. apply after_rows_In, Hin.
  - intros -> sk it Hget Hstart.
    assert (Hin : In (sk, it) (after_rows (orders w) customerId nextToken)) by (apply after_rows_In; auto).
    destruct (Nat.leb limit (length (after_rows (orders w) customerId nextToken))) eqn:L.
    + exfalso. apply Nat.leb_le in L.
      destruct (last (take limit (after_rows (orders w) customerId nextToken))) eqn:E; [discriminate|].
      apply last_None in E. apply (f_equal length) in E. rewrite length_take in E. cbn in E. lia.
    + apply Nat.leb_gt in L. rewrite take_ge by lia. exact Hin.
Qed.




(** ** The get and list handlers *)

(** X8: the get handler with an order id changes nothing and answers 500
    when the projection table is unavailable, 404 with the id when no
    order is stored under it, and otherwise 200 with a body whose fields
    are all copied unchanged from the stored projection. *)
Theorem get_order_handler_outcomes (ev : ApiEvent) (orderId : string) (w : World) :
  ev_order_id_param ev = Some orderId -> orderId <> "" ->
  (is_up ORDERS_BY_ID w = false ->
     get_order_handler ev w = (w, inr (err_response 500 "Internal server error"))) /\
  (is_up ORDERS_BY_ID w = true -> orders_by_id w !! orderId = None ->
     get_order_handler ev w =
       (w, inr {| statusCode := 404;
                  body := [("error", AS "Order not found"); ("order_id", AS orderId)] |})) /\
  (forall o, is_up ORDERS_BY_ID w = true -> orders_by_id w !! orderId = Some o ->
     exists b, get_order_handler ev w = (w, inr {| statusCode := 200; body := b |}) /\
               forall f v, In (f, v) b -> o !! f = Some v).
Proof.
  intros Hp Hne.
  unfold get_order_handler, try_catch, bind, ret. rewrite Hp.
  destruct orderId as [|a oid]; [congruence|].
  unfold getOrderById. rewrite ddb_get_spec.
  split; [|split].
  - intros U. rewrite U. reflexivity.
  - intros U Hn. rewrite U, Hn. reflexivity.
  - intros o U Ho. rewrite U, Ho. eexists. split; [reflexivity|].
    intros f v Hin. unfold json_obj in Hin.
    apply list_elem_of_In, list_elem_of_omap in Hin as [[k x] [Hin Hx]].
    destruct x as [x|]; cbn in Hx; [|discriminate]. injection Hx as <- <-.
    repeat (apply elem_of_cons in Hin as [Hin|Hin]; [injection Hin as <- <-; reflexivity|]).
    apply elem_of_nil in Hin. contradiction.
Qed.


Lemma str_app_nil (s : string) : ("" ++ s)%string = s.
Proof. reflexivity. Qed.

Lemma str_app_cons (c : ascii) (s1 s2 : string) : (String c s1 ++ s2)%string = String c (s1 ++ s2).
Proof. reflexivity. Qed.

Lemma digits_prefix_app (ds rest : string) (acc : Z) (seen : bool) :
  all_digits ds = true ->
  match rest with EmptyString => True | String c _ => digit_val c = None end ->
  digits_prefix (ds ++ rest) acc seen = digits_prefix ds acc seen.
Proof.
  revert acc seen. induction ds as [|c ds IH]; intros acc seen Hd Hr;
    rewrite ?str_app_nil, ?str_app_cons; cbn [all_digits digits_prefix] in Hd |- *.
  - destruct rest as [|c r]; [reflexivity|]. cbn [digits_prefix]. rewrite Hr. reflexivity.
  - destruct (digit_val c); [apply IH; assumption|discriminate].
Qed.

Lemma parseInt10_digit_head (c : ascii) (s : string) :
  digit_val c <> None -> parseInt10 (String c s) = digits_prefix (String c s) 0 false.
Proof.
  destruct c as [b0 b1 b2 b3 b4 b5 b6 b7].
  destruct b0, b1, b2, b3, b4, b5, b6, b7; intros H;
    (reflexivity || (exfalso; apply H; reflexivity)).
Qed.

(** X10: [parseInt] reads the leading digits only: a [limit] made of
    digits followed by text that does not start with a digit is handled
    exactly as the digits alone. *)
Theorem list_orders_limit_digits_prefix (customerId : option string)
    (nextToken : option (string * string)) (ds rest : string) :
  ds <> "" -> all_digits ds = true ->
  match rest with EmptyString => True | String c _ => digit_val c = None end ->
  list_orders_handler {| qp_customer_id := customerId; qp_limit := Some (ds ++ rest);
                         qp_next_token := nextToken |} =
  list_orders_handler {| qp_customer_id := customerId; qp_limit := Some ds;
                         qp_next_token := nextToken |}.
Proof.
  intros Hne Hd Hr.
  destruct ds as [|c ds]; [congruence|].
  assert (Hc : digit_val c <> None) by (cbn in Hd; destruct (digit_val c); congruence).
  assert (E : parseInt10 (String c ds ++ rest) = parseInt10 (String c ds)).
  { rewrite str_app_cons, !parseInt10_digit_head by exact Hc. rewrite <- str_app_cons.
    apply digits_prefix_app; assumption. }
  unfold list_orders_handler. cbn [qp_customer_id qp_limit qp_next_token].
  rewrite E, str_app_cons. reflexivity.
Qed.

(** ** [updateOrderStatus] *)

(** X11: without an expected status and with both tables available,
    [updateOrderStatus] succeeds and sets [status] and [updated_at] in the
    order's item and in its projection, keeping every other field; a
    missing item is created from its key attributes.  No other item, the
    inventory and the queue are touched. *)
Theorem updateOrderStatus_unconditional (cid tsid oid : string) (newStatus : OrderStatus)
    (now : string) (w : World) :
  is_up ORDERS w = true -> is_up ORDERS_BY_ID w = true ->
  exists w',
    updateOrderStatus cid tsid oid newStatus None now w = (w', inr true) /\
    orders w' !! (cid, tsid) =
      Some (set_status_item newStatus now (default (orders_key_attrs cid tsid) (orders w !! (cid, tsid)))) /\
    orders_by_id w' !! oid =
      Some (set_status_item newStatus now (default (by_id_key_attrs oid) (orders_by_id w !! oid))) /\
    (forall k, k <> (cid, tsid) -> orders w' !! k = orders w !! k) /\
    (forall k, k <> oid -> orders_by_id w' !! k = orders_by_id w !! k) /\
    inventory w' = inventory w /\ outbox w' = outbox w.
Proof.
  intros U1 U2.
  unfold updateOrderStatus, try_catch, bind, ret. rewrite ddb_update_spec, U1.
  cbv beta iota delta [no_condition]. rewrite ddb_update_spec.
  change (is_up ORDERS_BY_ID (set_orders _ w)) with (is_up ORDERS_BY_ID w). rewrite U2.
  eexists. split; [reflexivity|].
  cbn [orders orders_by_id inventory outbox set_orders set_orders_by_id].
  split; [apply lookup_insert_eq|]. split; [apply lookup_insert_eq|].
  split; [intros k Hk; apply lookup_insert_ne; congruence|].
  split; [intros k Hk; apply lookup_insert_ne; congruence|].
  split; reflexivity.
Qed.

(** X12: the two writes of [updateOrderStatus] are not atomic: when the
    guard holds but the projection table is unavailable, it raises, while
    the order's item already carries the new status. *)
Theorem updateOrderStatus_partial_write (cid tsid oid : string) (newStatus : OrderStatus)
    (expected : option OrderStatus) (now : string) (w : World) (it : Item) :
  is_up ORDERS w = true -> is_up ORDERS_BY_ID w = false ->
  orders w !! (cid, tsid) = Some it ->
  match expected with None => True | Some e => it !! "status" = Some (AS (status_str e)) end ->
  exists w',
    updateOrderStatus cid tsid oid newStatus expected now w = (w', inl (ServiceUnavailable ORDERS_BY_ID)) /\
    orders w' !! (cid, tsid) = Some (set_status_item newStatus now it) /\
    orders_by_id w' = orders_by_id w.
Proof.
  intros U1 U2 Hit Hexp.
  unfold updateOrderStatus, try_catch, bind, ret. rewrite ddb_update_spec, U1, Hit.
  replace (match expected with Some e => status_is (status_str e) | None => no_condition end (Some it))
    with true.
  2:{ destruct expected as [e|]; [|reflexivity].
      cbv beta iota delta [status_is]. rewrite Hexp. cbn [ddb_eq]. rewrite String.eqb_refl. reflexivity. }
  rewrite ddb_update_spec.
  change (is_up ORDERS_BY_ID (set_orders _ w)) with (is_up ORDERS_BY_ID w). rewrite U2.
  eexists. split; [reflexivity|].
  cbn [orders orders_by_id set_orders]. split; [apply lookup_insert_eq|reflexivity].
Qed.

(** ** Reservations *)



Lemma filter_all_false_nil {A} (p : A -> bool) (l : list A) :
  (forall x, In x l -> p x = false) -> List.filter p l = [].
Proof.
  induction l as [|x l IH]; intros H; [reflexivity|]. cbn.
  rewrite H by (left; reflexivity). apply IH. intros y Hy. apply H. right. exact Hy.
Qed.

Lemma reserve_all_sufficient_spec (reservationId now : string) (ev : ReserveInventoryRequest)
    (w : World) :
  is_up INVENTORY w = true ->
  (forall i, In i (rr_items ev) -> (quantity i <= item_available w (rr_store_id ev) i)%Z) ->
  reserve_inventory_handler reservationId now ev w =
    try_catch
      (executeTransaction
         (map (fun item => (store_sku_of (rr_store_id ev) (sku item), quantity item)) (rr_items ev)) now ;;;
       ret {| success := true; reservation_id := Some reservationId; failed_items := None; error := None |})
      (fun e =>
         match e with
         | TransactionCanceledException =>
             ret {| success := false; reservation_id := None; failed_items := None;
                    error := Some "Inventory changed during reservation, please retry" |}
         | _ =>
             ret {| success := false; reservation_id := None; failed_items := None;
                    error := Some (exn_string e) |}
         end) w.
Proof.
  intros U Hall.
  unfold reserve_inventory_handler. cbv beta delta [try_catch bind].
  rewrite mapM_check_item by exact U. cbv beta iota zeta.
  rewrite filter_map_comm, length_map. cbn [ac_sufficient].
  rewrite (filter_all_false_nil _ (rr_items ev)).
  - reflexivity.
  - intros i Hi. apply negb_false_iff, Z.leb_le, Hall, Hi.
Qed.

Lemma forallb_false_exists {A} (f : A -> bool) (l : list A) :
  forallb f l = false -> exists x, In x l /\ f x = false.
Proof.
  induction l as [|x l IH]; cbn; [discriminate|]. intros H.
  destruct (f x) eqn:E.
  - destruct (IH H) as [y [Hy Hf]]. exists y. split; [right; exact Hy|exact Hf].
  - exists x. split; [left; reflexivity|exact E].
Qed.



(** X14: a request that lists one SKU of the store twice is never reserved:
    Reserve answers [success = false] and the world stays as it was, even
    when each line alone fits the stock. *)
Theorem reserve_duplicate_sku (reservationId now : string) (ev : ReserveInventoryRequest) (w : World) :
  is_up INVENTORY w = true ->
  ~ NoDup (map (fun i => store_sku_of (rr_store_id ev) (sku i)) (rr_items ev)) ->
  exists r, reserve_inventory_handler reservationId now ev w = (w, inr r) /\ success r = false.
Proof.
  intros U Hdup.
  destruct (forallb (fun i => Z.leb (quantity i) (item_available w (rr_store_id ev) i)) (rr_items ev)) eqn:F.
  - rewrite reserve_all_sufficient_spec.
    2:{ exact U. }
    2:{ intros i Hi. apply Z.leb_le. rewrite forallb_forall in F. apply F, Hi. }
    cbv beta zeta delta [try_catch bind executeTransaction require gets modify raise ret]. rewrite U.
    rewrite bool_decide_eq_false_2.
    2:{ rewrite map_map. exact Hdup. }
    eexists. split; reflexivity.
  - rewrite reserve_insufficient_spec.
    + eexists. split; reflexivity.
    + exact U.
    + destruct (forallb_false_exists _ _ F) as [i [Hi Hf]]. exists i. split; [exact Hi|].
      apply Z.leb_gt. exact Hf.
Qed.

(** ** Domain events of the stream *)

Lemma json_obj_In (fs : list (string * option attr)) (k : string) (v : attr) :
  In (k, Some v) fs -> In (k, v) (json_obj fs).
Proof.
  intros H. apply list_elem_of_In, list_elem_of_omap. exists (k, Some v).
  split; [apply list_elem_of_In, H|reflexivity].
Qed.

Ltac find_field := apply json_obj_In; repeat (first [left; reflexivity | right]).

(** X15: every domain event built from a stream record names its kind in
    an [event_type] field and carries the record's [timestamp]. *)
Theorem transform_events_stamped (timestamp : string) (record : DynamoDBRecord) :
  forall e, In e (transformToDomainEvents timestamp record) ->
    (exists et, In ("event_type", AS et) (Detail e)) /\ In ("timestamp", AS timestamp) (Detail e).
Proof.
  apply List.Forall_forall.
  unfold transformToDomainEvents. destruct (dynamodb record) as [d|]; [|constructor]. cbv zeta.
  repeat match goal with
         | |- context [if ?b then _ else _] => destruct b
         | |- context [match NewImage d with _ => _ end] => destruct (NewImage d)
         | |- context [match OldImage d with _ => _ end] => destruct (OldImage d)
         end;
    cbn [app];
    repeat (apply List.Forall_cons; [cbn [Detail]; split; [eexists; find_field|find_field]|]);
    apply List.Forall_nil.
Qed.

(** X16: a MODIFY record whose [status] and [payment_state] are strictly
    equal in the old and new images yields no domain event, whatever else
    changed. *)
Theorem transform_modify_unchanged (timestamp : string) (record : DynamoDBRecord)
    (d : StreamRecord) (n o : Item) :
  eventName record = Some "MODIFY" -> dynamodb record = Some d ->
  NewImage d = Some n -> OldImage d = Some o ->
  js_strict_eq (n !! "status") (o !! "status") = true ->
  js_strict_eq (n !! "payment_state") (o !! "payment_state") = true ->
  transformToDomainEvents timestamp record = [].
Proof.
  intros He Hd Hn Ho Hs Hp.
  unfold transformToDomainEvents. rewrite Hd, He, Hn, Ho. cbv zeta.
  rewrite bool_decide_eq_false_2 by discriminate. rewrite bool_decide_eq_true_2 by reflexivity.
  rewrite Hs, Hp. reflexivity.
Qed.

(** X17: the kind of a record decides its events: an INSERT with a new
    image gives exactly one "Order Created", a REMOVE with an old image
    exactly one "Order Deleted", a MODIFY neither of these, and any other
    record (or one without stream data) none. *)
Theorem transform_event_kinds (timestamp : string) (record : DynamoDBRecord) :
  (dynamodb record = None -> transformToDomainEvents timestamp record = []) /\
  (forall d, dynamodb record = Some d ->
     (eventName record = Some "INSERT" ->
        map DetailType (transformToDomainEvents timestamp record) =
          match NewImage d with Some _ => ["Order Created"] | None => [] end) /\
     (eventName record = Some "REMOVE" ->
        map DetailType (transformToDomainEvents timestamp record) =
          match OldImage d with Some _ => ["Order Deleted"] | None => [] end) /\
     (eventName record = Some "MODIFY" ->
        forall e, In e (transformToDomainEvents timestamp record) ->
          DetailType e <> "Order Created" /\ DetailType e <> "Order Deleted") /\
     (eventName record <> Some "INSERT" -> eventName record <> Some "MODIFY" ->
      eventName record <> Some "REMOVE" -> transformToDomainEvents timestamp record = [])).
Proof.
  unfold transformToDomainEvents. split; [intros ->; reflexivity|].
  intros d Hd. rewrite Hd. cbv zeta. split; [|split; [|split]].
  - intros ->. rewrite bool_decide_eq_true_2 by reflexivity. destruct (NewImage d); reflexivity.
  - intros ->. rewrite !bool_decide_eq_false_2 by discriminate.
    rewrite bool_decide_eq_true_2 by reflexivity. destruct (OldImage d); reflexivity.
  - intros ->. rewrite bool_decide_eq_false_2 by discriminate.
    rewrite bool_decide_eq_true_2 by reflexivity. apply List.Forall_forall.
    destruct (NewImage d), (OldImage d); try apply List.Forall_nil.
    repeat match goal with |- context [if ?b then _ else _] => destruct b end;
      cbn [app];
      repeat (apply List.Forall_cons; [cbn [DetailType]; split; discriminate|]);
      apply List.Forall_nil.
  - intros H1 H2 H3. rewrite !bool_decide_eq_false_2 by assumption. reflexivity.
Qed.

(** ** Publishing in batches *)

Lemma event_batches_concat {A} (fuel i : nat) (events : list A) :
  length events <= i + 10 * fuel ->
  concat (event_batches fuel i events) = drop i events.
Proof.
  revert i. induction fuel as [|fuel IH]; intros i Hlen; cbn [event_batches].
  - rewrite drop_ge by lia. reflexivity.
  - destruct (i <? length events)%nat eqn:E.
    + cbn [concat]. rewrite IH by lia.
      rewrite <- (take_drop 10 (drop i events)) at 2. rewrite drop_drop. reflexivity.
    + apply Nat.ltb_ge in E. rewrite drop_ge by lia. reflexivity.
Qed.

Lemma event_batches_sizes {A} (fuel i : nat) (events : list A) :
  forall b, In b (event_batches fuel i events) -> 1 <= length b <= 10.
Proof.
  revert i. induction fuel as [|fuel IH]; intros i b Hb; cbn [event_batches] in Hb; [destruct Hb|].
  destruct (i <? length events)%nat eqn:E; [|destruct Hb].
  apply Nat.ltb_lt in E. destruct Hb as [<-|Hb]; [|exact (IH _ _ Hb)].
  rewrite length_take, length_drop. lia.
Qed.

Section PublishSpecs.
Variable put_events : list PutEventsRequestEntry -> option Z.

Lemma publish_batches_prefix (bs : list (list PutEventsRequestEntry)) :
  exists k, fst (publish_batches put_events bs) = take k bs /\
            (snd (publish_batches put_events bs) = true -> fst (publish_batches put_events bs) = bs).
Proof.
  induction bs as [|b bs IH]; cbn [publish_batches].
  - exists 0. split; reflexivity.
  - destruct (put_events b) as [c|].
    + destruct (0 <? c)%Z.
      * exists 1. split; [reflexivity|discriminate].
      * destruct (publish_batches put_events bs) as [sent ok]. cbn [fst snd] in *.
        destruct IH as [k [Hk Hok]]. exists (S k). split; [rewrite Hk; reflexivity|].
        intros Ht. rewrite (Hok Ht). reflexivity.
    + exists 1. split; [reflexivity|discriminate].
Qed.
End PublishSpecs.

(** X18: [publishEvents] sends batches of one to ten events, never out of
    order and never an event twice: the events sent are a prefix of the
    list, and all of it when [publishEvents] returns normally. *)
Theorem publishEvents_batches (put_events : list PutEventsRequestEntry -> option Z)
    (events : list PutEventsRequestEntry) :
  let '(sent, ok) := publishEvents put_events events in
  (forall b, In b sent -> 1 <= length b <= 10) /\
  (exists rest, (concat sent ++ rest)%list = events) /\
  (ok = true -> concat sent = events).
Proof.
  unfold publishEvents.
  set (bs := event_batches (length events) 0 events).
  assert (Hc : concat bs = events) by (unfold bs; rewrite event_batches_concat by lia; reflexivity).
  destruct (publish_batches_prefix put_events bs) as [k [Hk Hok]].
  destruct (publish_batches put_events bs) as [sent ok]. cbn [fst snd] in Hk, Hok. subst sent.
  split; [|split].
  - intros b Hb. apply (event_batches_sizes (length events) 0 events). apply (In_take _ k), Hb.
  - exists (concat (drop k bs)). rewrite <- concat_app, take_drop. exact Hc.
  - intros Ht. rewrite (Hok Ht). exact Hc.
Qed.

(** X19: the stream handler makes no call and reports nothing when the
    records yield no domain event; otherwise either all events are
    published in order and nothing is reported, or every record with an
    [eventID] is reported while the events sent before the failing call (a
    prefix of all events) stay sent. *)
Theorem stream_handler_outcome (put_events : list PutEventsRequestEntry -> option Z)
    (records : list StreamEventRecord) :
  let evs := concat (map (fun r => transformToDomainEvents (seen_at r) (change r)) records) in
  let '(sent, failures) := stream_handler put_events records in
  (evs = [] -> sent = [] /\ failures = []) /\
  ((failures = [] /\ concat sent = evs) \/
   (failures = omap eventID records /\ exists rest, (concat sent ++ rest)%list = evs)).
Proof.
  cbv zeta. unfold stream_handler.
  set (evs := concat (map (fun r => transformToDomainEvents (seen_at r) (change r)) records)).
  destruct (0 <? length evs)%nat eqn:E.
  - pose proof (publishEvents_batches put_events evs) as Hp.
    destruct (publishEvents put_events evs) as [sent ok].
    destruct Hp as (_ & Hpre & Hok). split.
    + intros Hn. rewrite Hn in E. discriminate.
    + destruct ok; [left; split; [reflexivity|apply Hok; reflexivity]|right; split; [reflexivity|exact Hpre]].
  - apply Nat.ltb_ge in E. assert (Hn : evs = []) by (destruct evs; [reflexivity|cbn in E; lia]).
    split; [intros _; split; reflexivity|]. left. split; [reflexivity|rewrite Hn; reflexivity].
Qed.

(** ** Notification messages *)

(** X20: a notification message has type [ORDER_] followed by the status,
    carries the request's order, customer and status, and its details
    start with a ["message"] field; a FAILED notification always gives a
    non-empty reason, ["Unknown error"] when the request has none. *)
Theorem notification_message_shape (timestamp : string) (event : SendNotificationRequest) :
  let m := buildNotificationMessage timestamp event in
  nm_type m = ("ORDER_" ++ sn_status event)%string /\ nm_order_id m = sn_order_id event /\
  nm_customer_id m = sn_customer_id event /\ nm_status m = sn_status event /\
  (exists txt, head (nm_details m) = Some ("message", AS txt)) /\
  (sn_status event = "FAILED" ->
     exists r, In ("reason", AS r) (nm_details m) /\ r <> "" /\
               (sn_reason event = None -> r = "Unknown error")).
Proof.
  cbv zeta. unfold buildNotificationMessage. cbv zeta.
  cbn [nm_type nm_order_id nm_customer_id nm_status nm_details].
  do 4 (split; [reflexivity|]). split.
  - repeat match goal with |- context [if ?b then _ else _] => destruct b end;
      eexists; reflexivity.
  - intros Hs. rewrite Hs. cbn -[reason_or_default].
    exists (reason_or_default (sn_reason event)). split; [right; left; reflexivity|].
    split.
    + unfold reason_or_default. destruct (sn_reason event) as [[|c r]|]; discriminate.
    + intros ->. reflexivity.
Qed.

(** ** The saga orchestrator *)

Section SagaFrame.
Variable lambda_response : string -> list (string * attr) -> bool -> InvokeResponse.
Variable now : string.

Lemma inv_ret {A} (a : A) w : inventory (fst (ret a w)) = inventory w.
Proof. reflexivity. Qed.

Lemma inv_raise {A} (e : exn) w : inventory (fst (@raise A e w)) = inventory w.
Proof. reflexivity. Qed.

Lemma inv_bind {A B} (m : M A) (k : A -> M B) w :
  (forall w, inventory (fst (m w)) = inventory w) ->
  (forall a w, inventory (fst (k a w)) = inventory w) ->
  inventory (fst (bind m k w)) = inventory w.
Proof.
  intros Hm Hk. unfold bind. specialize (Hm w).
  destruct (m w) as [w1 [e|a]]; cbn in Hm |- *; [exact Hm|]. rewrite Hk. exact Hm.
Qed.

Lemma inv_try {A} (m : M A) (h : exn -> M A) w :
  (forall w, inventory (fst (m w)) = inventory w) ->
  (forall e w, inventory (fst (h e w)) = inventory w) ->
  inventory (fst (try_catch m h w)) = inventory w.
Proof.
  intros Hm Hh. unfold try_catch. specialize (Hm w).
  destruct (m w) as [w1 [e|a]]; cbn in Hm |- *; [rewrite Hh|]; exact Hm.
Qed.

Lemma inv_getOrderById oid w : inventory (fst (getOrderById oid w)) = inventory w.
Proof. unfold getOrderById. rewrite ddb_get_spec. destruct (is_up _ _); reflexivity. Qed.

Lemma inv_updateOrderStatus cid tsid oid ns e now' w :
  inventory (fst (updateOrderStatus cid tsid oid ns e now' w)) = inventory w.
Proof.
  unfold updateOrderStatus. apply inv_try; [|intros [] w'; reflexivity].
  intros w1. apply inv_bind.
  - intros w2. rewrite ddb_update_spec.
    destruct (is_up _ _); [destruct (_ : bool)|]; reflexivity.
  - intros _ w2. apply inv_bind; [|intros; reflexivity].
    intros w3. rewrite ddb_update_spec.
    destruct (is_up _ _); [destruct (_ : bool)|]; reflexivity.
Qed.

Lemma inv_invokeFunction arn payload async w :
  inventory (fst (invokeFunction lambda_response arn payload async w)) = inventory w.
Proof.
  unfold invokeFunction.
  destruct (lambda_response arn payload async); [reflexivity| |];
    (apply inv_bind; [intros; reflexivity|intros _ w'; destruct async; reflexivity]).
Qed.

Ltac keeps_inv :=
  repeat first
    [ progress intros
    | apply inv_ret | apply inv_raise | apply inv_getOrderById | apply inv_updateOrderStatus
    | apply inv_invokeFunction
    | apply inv_bind | apply inv_try
    | match goal with |- context [match ?x with _ => _ end] => destruct x end ].

Lemma inv_failOrder message reason w :
  inventory (fst (failOrder lambda_response now message reason w)) = inventory w.
Proof. unfold failOrder. keeps_inv. Qed.

Lemma inv_process_record record w :
  inventory (fst (process_record lambda_response now record w)) = inventory w.
Proof. unfold process_record. keeps_inv; apply inv_failOrder. Qed.
End SagaFrame.

(** X21: the saga orchestrator never touches the inventory table: after
    any batch of records, whatever the invoked functions answer, the
    inventory is as before (reservations happen only inside the invoked
    Reserve function). *)
Theorem saga_keeps_inventory
    (lambda_response : string -> list (string * attr) -> bool -> InvokeResponse)
    (now : string) (records : list SQSRecord) (w : World) :
  inventory (fst (saga_handler lambda_response now records w)) = inventory w.
Proof.
  unfold saga_handler. revert w. induction records as [|r rs IH]; intros w; [reflexivity|].
  cbn [process_records]. apply inv_bind; [apply inv_process_record|].
  intros b w1. apply inv_bind; [exact IH|]. intros; reflexivity.
Qed.

Lemma invoke_payload lambda_response arn payload d w :
  lambda_response arn payload false = InvokePayload d ->
  invokeFunction lambda_response arn payload false w =
    (emit (LambdaInvoke arn payload false) w, inr {| inv_success := true; inv_data := Some d; inv_error := None |}).
Proof. intros H. unfold invokeFunction. rewrite H. reflexivity. Qed.

Lemma invoke_function_error lambda_response arn payload m w :
  lambda_response arn payload false = FunctionError m ->
  invokeFunction lambda_response arn payload false w =
    (emit (LambdaInvoke arn payload false) w,
     inr {| inv_success := false; inv_data := None; inv_error := Some (default "Function error" m) |}).
Proof. intros H. unfold invokeFunction. rewrite H. reflexivity. Qed.

Lemma invoke_async lambda_response arn payload w :
  (forall m, lambda_response arn payload true <> InvokeThrew m) ->
  invokeFunction lambda_response arn payload true w =
    (emit (LambdaInvoke arn payload true) w, inr {| inv_success := true; inv_data := None; inv_error := None |}).
Proof.
  intros H. unfold invokeFunction.
  destruct (lambda_response arn payload true) eqn:E; [exfalso; eapply H; reflexivity|reflexivity|reflexivity].
Qed.

(** X22: a record whose body does not parse, or whose order cannot be read
    because the projection table is unavailable, is reported for retry;
    a record whose order does not exist is acknowledged.  In all three
    cases nothing is written and no function is invoked. *)
Theorem saga_record_edge_cases
    (lambda_response : string -> list (string * attr) -> bool -> InvokeResponse)
    (now : string) (record : SQSRecord) (w : World) :
  (body_msg record = None -> process_record lambda_response now record w = (w, inr true)) /\
  (forall message, body_msg record = Some message -> is_up ORDERS_BY_ID w = false ->
     process_record lambda_response now record w = (w, inr true)) /\
  (forall message, body_msg record = Some message -> is_up ORDERS_BY_ID w = true ->
     orders_by_id w !! msg_order_id message = None ->
     process_record lambda_response now record w = (w, inr false)).
Proof.
  unfold process_record. cbv beta delta [try_catch bind ret raise]. split; [|split].
  - intros Hb. rewrite Hb. reflexivity.
  - intros message Hb U. rewrite Hb. unfold getOrderById. rewrite ddb_get_spec, U. reflexivity.
  - intros message Hb U Ho. rewrite Hb. unfold getOrderById. rewrite ddb_get_spec, U, Ho. reflexivity.
Qed.

(** X23: for a PENDING order whose reservation and payment functions both
    answer with a payload, [process_record] acknowledges the record, sets
    the order to CONFIRMED in both tables, and invokes Reserve, then
    payment, then (asynchronously) the confirmation notification. *)
Theorem saga_confirms_pending
    (lambda_response : string -> list (string * attr) -> bool -> InvokeResponse)
    (now : string) (record : SQSRecord) (message : OrderProcessingMessage) (o it : Item)
    (d1 d2 : list (string * attr)) (w : World) :
  body_msg record = Some message ->
  is_up ORDERS w = true -> is_up ORDERS_BY_ID w = true ->
  orders_by_id w !! msg_order_id message = Some o ->
  o !! "status" = Some (AS "PENDING") ->
  orders w !! (msg_customer_id message, order_ts_id_of o) = Some it ->
  it !! "status" = Some (AS "PENDING") ->
  lambda_response RESERVE_INVENTORY_FN (reserve_payload message o) false = InvokePayload d1 ->
  lambda_response PROCESS_PAYMENT_FN (payment_payload message o) false = InvokePayload d2 ->
  (forall m, lambda_response SEND_NOTIFICATIONS_FN (confirm_payload message o) true <> InvokeThrew m) ->
  exists w',
    process_record lambda_response now record w = (w', inr false) /\
    orders w' !! (msg_customer_id message, order_ts_id_of o) = Some (set_status_item CONFIRMED now it) /\
    orders_by_id w' !! msg_order_id message = Some (set_status_item CONFIRMED now o) /\
    inventory w' = inventory w /\
    outbox w' = (outbox w ++ [LambdaInvoke RESERVE_INVENTORY_FN (reserve_payload message o) false;
                              LambdaInvoke PROCESS_PAYMENT_FN (payment_payload message o) false;
                              LambdaInvoke SEND_NOTIFICATIONS_FN (confirm_payload message o) true])%list.
Proof.
  intros Hb U1 U2 Ho Hs Hit Hits Hr Hp Hn.
  unfold reserve_payload, payment_payload, confirm_payload in *.
  unfold process_record. cbv beta delta [try_catch bind ret raise]. rewrite Hb.
  unfold getOrderById. rewrite ddb_get_spec, U2, Ho. cbv beta iota. rewrite Hs.
  change (negb (js_strict_eq (Some (AS "PENDING")) (Some (AS (status_str PENDING))))) with false.
  cbv beta iota. rewrite (invoke_payload _ _ _ _ _ Hr). cbv beta iota. cbn [inv_success negb].
  rewrite (invoke_payload _ _ _ _ _ Hp). cbv beta iota. cbn [inv_success negb].
  rewrite (updateOrderStatus_guard_holds _ _ _ _ _ _ _ it); [|exact U1|exact U2|exact Hit|exact Hits].
  cbv beta iota. cbn [negb]. rewrite (invoke_async _ _ _ _ Hn). cbv beta iota.
  eexists. split; [reflexivity|].
  cbn [orders orders_by_id inventory outbox emit set_orders set_orders_by_id].
  split; [apply lookup_insert_eq|]. split; [rewrite lookup_insert_eq, Ho; reflexivity|].
  split; [reflexivity|]. rewrite <- !app_assoc. reflexivity.
Qed.

(** X24: when Reserve answers with a function error for a PENDING order,
    [process_record] acknowledges the record, sets the order to FAILED in
    both tables and sends the FAILED notification with the reason
    ["Inventory reservation failed"]; the payment function is never
    invoked. *)
Theorem saga_reserve_failure
    (lambda_response : string -> list (string * attr) -> bool -> InvokeResponse)
    (now : string) (record : SQSRecord) (message : OrderProcessingMessage) (o it : Item)
    (m : option string) (w : World) :
  body_msg record = Some message ->
  is_up ORDERS w = true -> is_up ORDERS_BY_ID w = true ->
  orders_by_id w !! msg_order_id message = Some o ->
  o !! "status" = Some (AS "PENDING") ->
  orders w !! (msg_customer_id message, order_ts_id_of o) = Some it ->
  it !! "status" = Some (AS "PENDING") ->
  lambda_response RESERVE_INVENTORY_FN (reserve_payload message o) false = FunctionError m ->
  (forall m', lambda_response SEND_NOTIFICATIONS_FN
                (fail_payload message "Inventory reservation failed") true <> InvokeThrew m') ->
  exists w',
    process_record lambda_response now record w = (w', inr false) /\
    orders w' !! (msg_customer_id message, order_ts_id_of o) = Some (set_status_item FAILED now it) /\
    orders_by_id w' !! msg_order_id message = Some (set_status_item FAILED now o) /\
    outbox w' = (outbox w ++ [LambdaInvoke RESERVE_INVENTORY_FN (reserve_payload message o) false;
                              LambdaInvoke SEND_NOTIFICATIONS_FN
                                (fail_payload message "Inventory reservation failed") true])%list.
Proof.
  intros Hb U1 U2 Ho Hs Hit Hits Hr Hn.
  unfold reserve_payload, fail_payload in *.
  unfold process_record. cbv beta delta [try_catch bind ret raise]. rewrite Hb.
  unfold getOrderById. rewrite ddb_get_spec, U2, Ho. cbv beta iota. rewrite Hs.
  change (negb (js_strict_eq (Some (AS "PENDING")) (Some (AS (status_str PENDING))))) with false.
  cbv beta iota. rewrite (invoke_function_error _ _ _ _ _ Hr). cbv beta iota. cbn [inv_success negb].
  unfold failOrder. cbv beta delta [try_catch bind ret].
  unfold getOrderById. rewrite ddb_get_spec.
  change (is_up ORDERS_BY_ID (emit _ w)) with (is_up ORDERS_BY_ID w). rewrite U2.
  change (orders_by_id (emit _ w)) with (orders_by_id w). rewrite Ho. cbv beta iota.
  rewrite (updateOrderStatus_guard_holds _ _ _ _ _ _ _ it); [|exact U1|exact U2|exact Hit|exact Hits].
  cbv beta iota. rewrite (invoke_async _ _ _ _ Hn). cbv beta iota.
  eexists. split; [reflexivity|].
  cbn [orders orders_by_id outbox emit set_orders set_orders_by_id].
  split; [apply lookup_insert_eq|]. split; [rewrite lookup_insert_eq, Ho; reflexivity|].
  rewrite <- !app_assoc. reflexivity.
Qed.

(** ** The payment handler's answer *)


(** ** Order sort keys *)

Lemma split_on_no_sep (c : ascii) (s : string) :
  ~ In c (Stdlib.Strings.String.list_ascii_of_string s) -> split_on c s = [s].
Proof.
  induction s as [|x s IH]; intros H; [reflexivity|]. cbn [split_on].
  cbn [Stdlib.Strings.String.list_ascii_of_string In] in H.
  destruct (Ascii.eqb x c) eqn:E.
  - apply Ascii.eqb_eq in E. subst x. exfalso. apply H. left. reflexivity.
  - rewrite IH by tauto. reflexivity.
Qed.

Lemma split_on_app_sep (c : ascii) (s t : string) :
  ~ In c (Stdlib.Strings.String.list_ascii_of_string s) -> split_on c (s ++ String c t) = s :: split_on c t.
Proof.
  induction s as [|x s IH]; intros H.
  - rewrite str_app_nil. cbn [split_on]. rewrite Ascii.eqb_refl. reflexivity.
  - rewrite str_app_cons. cbn [split_on].
    cbn [Stdlib.Strings.String.list_ascii_of_string In] in H.
    destruct (Ascii.eqb x c) eqn:E.
    + apply Ascii.eqb_eq in E. subst x. exfalso. apply H. left. reflexivity.
    + rewrite IH by tauto. reflexivity.
Qed.

(** X26: [parseOrderSortKey] undoes [generateOrderSortKey] when neither the
    timestamp nor the order id contains ["#"], as holds for ISO timestamps
    and ULIDs. *)
Theorem parse_generate_sort_key (timestamp orderId : string) :
  ~ In "#"%char (Stdlib.Strings.String.list_ascii_of_string timestamp) ->
  ~ In "#"%char (Stdlib.Strings.String.list_ascii_of_string orderId) ->
  parseOrderSortKey (generateOrderSortKey timestamp orderId) = (timestamp, Some orderId).
Proof.
  intros Ht Ho. unfold parseOrderSortKey, generateOrderSortKey.
  change ("#" ++ orderId)%string with (String "#" orderId).
  rewrite split_on_app_sep by exact Ht. rewrite split_on_no_sep by exact Ho. reflexivity.
Qed.

(** ** Instances of the further properties on concrete worlds *)

Lemma create_order_missing_key_witness :
  create_order_handler "ORD-1" scenario_ts no_key_event empty_world =
    (empty_world, inr (err_response 400 "Missing X-Idempotency-Key header")).
Proof.
  apply create_order_missing_key. left. reflexivity.
Defined.

Lemma create_order_invalid_body_witness :
  exists resp, create_order_handler "ORD-1" scenario_ts no_body_event empty_world = (empty_world, inr resp) /\
               statusCode resp = 400%Z.
Proof.
  apply (create_order_invalid_body "ORD-1" scenario_ts "key-2").
  - reflexivity.
  - discriminate.
  - reflexivity.
Defined.

Lemma create_order_fresh_201_witness :
  exists w' resp,
    create_order_handler "ORD-1" scenario_ts scenario_event empty_world = (w', inr resp) /\
    statusCode resp = 201%Z.
Proof.
  destruct (create_order_fresh_201 "ORD-1" scenario_ts "retry-key-0001" scenario_event
              scenario_request empty_world) as (w' & resp & H1 & H2 & _).
  - reflexivity.
  - discriminate.
  - reflexivity.
  - reflexivity.
  - reflexivity.
  - reflexivity.
  - reflexivity.
  - exists w', resp. split; assumption.
Defined.

Lemma create_order_existing_200_witness :
  exists resp,
    create_order_handler "ORD-1" scenario_ts scenario_event created_world = (created_world, inr resp) /\
    statusCode resp = 200%Z.
Proof.
  eexists. split.
  { apply (create_order_existing_200 "ORD-1" scenario_ts "retry-key-0001" scenario_event
           scenario_request created_world
           (order_item created_order)
           (AS "CUST-001")).
    - reflexivity.
    - discriminate.
    - reflexivity.
    - reflexivity.
    - reflexivity.
    - reflexivity. }
  reflexivity.
Defined.

Lemma create_order_queue_down_500_witness :
  exists w',
    create_order_handler "ORD-1" scenario_ts scenario_event queue_down_world =
      (w', inr (err_response 500 "Internal server error")).
Proof.
  destruct (create_order_queue_down_500 "ORD-1" scenario_ts "retry-key-0001" scenario_event
              scenario_request queue_down_world) as (w' & H & _).
  - reflexivity.
  - discriminate.
  - reflexivity.
  - reflexivity.
  - reflexivity.
  - reflexivity.
  - reflexivity.
  - exists w'. exact H.
Defined.

Lemma listOrdersByCustomer_page_witness :
  exists rows : list (string * Item),
    [summary_item "B"] = map snd rows /\ StronglySorted strictly_newer rows.
Proof.
  destruct (listOrdersByCustomer_page "C1" 1 None history_world history_world [summary_item "B"]
              (Some ("C1", "T2#B"))) as [_ (rows & H1 & H2 & _)].
  - reflexivity.
  - exists rows. split; assumption.
Defined.


Lemma get_order_handler_outcomes_witness :
  exists b, get_order_handler get_event created_world = (created_world, inr {| statusCode := 200; body := b |}).
Proof.
  destruct (get_order_handler_outcomes get_event "ORD-1" created_world) as (_ & _ & H3).
  - reflexivity.
  - discriminate.
  - destruct (H3 (order_by_id_item created_order))
      as (b & Hb & _).
    + reflexivity.
    + reflexivity.
    + exists b. exact Hb.
Defined.


Lemma list_orders_limit_digits_prefix_witness :
  list_orders_handler {| qp_customer_id := Some "C1"; qp_limit := Some ("5" ++ "x");
                         qp_next_token := None |} =
  list_orders_handler {| qp_customer_id := Some "C1"; qp_limit := Some "5";
                         qp_next_token := None |}.
Proof.
  apply list_orders_limit_digits_prefix.
  - discriminate.
  - reflexivity.
  - reflexivity.
Defined.

Lemma updateOrderStatus_unconditional_witness :
  exists w', updateOrderStatus "CUST-001" "T#ORD-1" "ORD-1" SHIPPED None "now" stale_world = (w', inr true).
Proof.
  destruct (updateOrderStatus_unconditional "CUST-001" "T#ORD-1" "ORD-1" SHIPPED "now" stale_world)
    as (w' & H & _).
  - reflexivity.
  - reflexivity.
  - exists w'. exact H.
Defined.

Lemma updateOrderStatus_partial_write_witness :
  exists w',
    updateOrderStatus "CUST-001" "T#ORD-1" "ORD-1" SHIPPED (Some CANCELLED) "now" by_id_down_world =
      (w', inl (ServiceUnavailable ORDERS_BY_ID)) /\
    orders w' !! ("CUST-001", "T#ORD-1") = Some (set_status_item SHIPPED "now" stale_item).
Proof.
  destruct (updateOrderStatus_partial_write "CUST-001" "T#ORD-1" "ORD-1" SHIPPED (Some CANCELLED) "now"
              by_id_down_world stale_item) as (w' & H1 & H2 & _).
  - reflexivity.
  - reflexivity.
  - reflexivity.
  - reflexivity.
  - exists w'. split; assumption.
Defined.


Lemma reserve_duplicate_sku_witness :
  exists r, reserve_inventory_handler "RES-1" "now"
              (reserve_request [reserve_line "BEER-001" 1; reserve_line "BEER-001" 1]) reserve_world =
            (reserve_world, inr r) /\ success r = false.
Proof.
  apply reserve_duplicate_sku.
  - reflexivity.
  - cbn [map rr_items reserve_request rr_store_id reserve_line sku].
    rewrite NoDup_cons. intros [H _]. apply H. apply elem_of_cons. left. reflexivity.
Defined.

Lemma transform_events_stamped_witness :
  In ("timestamp", AS "T") (Detail (hd no_entry (transformToDomainEvents "T" insert_record))).
Proof.
  destruct (transform_events_stamped "T" insert_record (hd no_entry (transformToDomainEvents "T" insert_record)))
    as [_ H].
  - vm_compute. left. reflexivity.
  - exact H.
Defined.

Lemma transform_modify_unchanged_witness :
  transformToDomainEvents "T"
    (modify_record (<["updated_at" := AS "T2"]> (image "PENDING" "PENDING")) (image "PENDING" "PENDING")) = [].
Proof.
  apply (transform_modify_unchanged "T" _
           {| NewImage := Some (<["updated_at" := AS "T2"]> (image "PENDING" "PENDING"));
              OldImage := Some (image "PENDING" "PENDING") |}
           (<["updated_at" := AS "T2"]> (image "PENDING" "PENDING")) (image "PENDING" "PENDING")).
  - reflexivity.
  - reflexivity.
  - reflexivity.
  - reflexivity.
  - reflexivity.
  - reflexivity.
Defined.

Lemma transform_event_kinds_witness :
  map DetailType (transformToDomainEvents "T" insert_record) = ["Order Created"].
Proof.
  destruct (transform_event_kinds "T" insert_record) as [_ H].
  destruct (H {| NewImage := Some (image "PENDING" "PENDING"); OldImage := None |}) as [H1 _].
  - reflexivity.
  - exact (H1 eq_refl).
Defined.

Lemma publishEvents_batches_witness :
  concat (fst (publishEvents put_ok (numbered_events 12))) = numbered_events 12.
Proof.
  pose proof (publishEvents_batches put_ok (numbered_events 12)) as H.
  destruct (publishEvents put_ok (numbered_events 12)) as [sent ok] eqn:E.
  destruct H as (_ & _ & H3).
  apply H3. vm_compute in E. congruence.
Defined.

Lemma stream_handler_outcome_witness :
  exists rest,
    (concat (fst (stream_handler put_throws stream_records)) ++ rest)%list =
      concat (map (fun r => transformToDomainEvents (seen_at r) (change r)) stream_records).
Proof.
  pose proof (stream_handler_outcome put_throws stream_records) as H.
  cbv zeta in H.
  destruct (stream_handler put_throws stream_records) as [sent failures].
  destruct H as [_ [[_ H] | [_ H]]].
  - exists []. rewrite app_nil_r. exact H.
  - exact H.
Defined.

Lemma notification_message_shape_witness :
  exists r, In ("reason", AS r) (nm_details (buildNotificationMessage "T" failed_notification)) /\
            r = "Unknown error".
Proof.
  destruct (notification_message_shape "T" failed_notification) as (_ & _ & _ & _ & _ & H).
  destruct H as (r & H1 & _ & H3).
  - reflexivity.
  - exists r. split; [exact H1 | exact (H3 eq_refl)].
Defined.

Lemma saga_record_edge_cases_witness :
  process_record lambda_ok "now" {| messageId := "m-2"; body_msg := None |} saga_world = (saga_world, inr true).
Proof.
  destruct (saga_record_edge_cases lambda_ok "now" {| messageId := "m-2"; body_msg := None |} saga_world)
    as [H _].
  exact (H eq_refl).
Defined.

Lemma saga_confirms_pending_witness :
  exists w',
    process_record lambda_ok "now" saga_record pending_world = (w', inr false) /\
    orders w' !! ("CUST-001", "T#ORD-1") = Some (set_status_item CONFIRMED "now" pending_item).
Proof.
  destruct (saga_confirms_pending lambda_ok "now" saga_record saga_message pending_item pending_item [] []
              pending_world) as (w' & H1 & H2 & _).
  - reflexivity.
  - reflexivity.
  - reflexivity.
  - reflexivity.
  - reflexivity.
  - reflexivity.
  - reflexivity.
  - reflexivity.
  - reflexivity.
  - intros m. discriminate.
  - exists w'. split; [exact H1 | exact H2].
Defined.

Lemma saga_reserve_failure_witness :
  exists w',
    process_record lambda_no_stock "now" saga_record pending_world = (w', inr false) /\
    orders w' !! ("CUST-001", "T#ORD-1") = Some (set_status_item FAILED "now" pending_item).
Proof.
  destruct (saga_reserve_failure lambda_no_stock "now" saga_record saga_message pending_item pending_item
              (Some "out of stock") pending_world) as (w' & H1 & H2 & _).
  - reflexivity.
  - reflexivity.
  - reflexivity.
  - reflexivity.
  - reflexivity.
  - reflexivity.
  - reflexivity.
  - reflexivity.
  - intros m. vm_compute. discriminate.
  - exists w'. split; [exact H1 | exact H2].
Defined.


Lemma parse_generate_sort_key_witness :
  parseOrderSortKey (generateOrderSortKey scenario_ts "ORD-1") = (scenario_ts, Some "ORD-1").
Proof.
  apply parse_generate_sort_key.
  - vm_compute. intros H. repeat (destruct H as [H | H]; [discriminate H |]). exact H.
  - vm_compute. intros H. repeat (destruct H as [H | H]; [discriminate H |]). exact H.
Defined.
